(** * freecad.trails: curve tracker, surface editing and tracker geometry

    A shallow embedding of
      - [project/trackers/curve_tracker.py]   (class [CurveTracker]),
      - [geomatics/surface/EditSurface.py]    (classes [SwapEdge], [AddPoint]),
      - [project/trackers2/core/geometry.py]  (class [Geometry]),
      - [project/trackers2/core/marker.py]    (class [Marker]),
      - [project/commands/wire_tracker.py]    (class [WireTracker]),
    and the properties of the alignment-editing specification that are
    decided by them.

    Python floats are IEEE doubles: they are embedded as Rocq's primitive
    floats.  Dictionaries are [gmap]s with string keys.  A Python
    exception is the [Raise] constructor of [Outcome]; a method that
    mutates [self] returns the outcome together with the object after
    the call. *)

From Stdlib Require Import Floats.PrimFloat.
From Stdlib Require Floats.SpecFloat Floats.FloatOps.
From Stdlib Require Import ZArith Lia.
From stdpp Require Import base option list strings pretty gmap.

Local Open Scope string_scope.
Local Open Scope list_scope.

(** ** Python values and exceptions *)

Inductive PyError :=
| KeyError (key : string)
| IndexError
| AttributeError (attr : string)
| TypeError
| KernelError (msg : string).

Inductive Outcome (A : Type) :=
| Return (a : A)
| Raise (e : PyError).
Arguments Return {A} a.
Arguments Raise {A} e.

#[global] Instance outcome_ret : MRet Outcome := fun A a => Return a.
#[global] Instance outcome_bind : MBind Outcome := fun A B f m =>
  match m with
  | Return a => f a
  | Raise e => Raise e
  end.

#[global] Instance outcome_fmap : FMap Outcome := fun A B f m =>
  match m with
  | Return a => Return (f a)
  | Raise e => Raise e
  end.

Definition from_outcome {A} (d : A) (m : Outcome A) : A :=
  match m with
  | Return a => a
  | Raise _ => d
  end.

(** ** FreeCAD.Vector *)

Module FreeCAD.

Record Vector := mkVector { x : float; y : float; z : float }.

Definition sub (a b : Vector) : Vector :=
  mkVector (x a - x b) (y a - y b) (z a - z b).

Definition add (a b : Vector) : Vector :=
  mkVector (x a + x b) (y a + y b) (z a + z b).

(** [Vector.multiply(s)] scales by the scalar [s]. *)
Definition multiply (a : Vector) (s : float) : Vector :=
  mkVector (x a * s) (y a * s) (z a * s).

Definition distanceToPoint (a b : Vector) : float :=
  let dx := (x a - x b)%float in
  let dy := (y a - y b)%float in
  let dz := (z a - z b)%float in
  PrimFloat.sqrt (dx * dx + dy * dy + dz * dz).

End FreeCAD.

(** ** Coin fields *)

Module Coin.

(** An [SoMFVec3f] (the [point] of an [SoCoordinate3]) stores
    single-precision floats.  A Python float written to it is rounded to
    the nearest single, ties to even, beyond the range to an infinity;
    read back, it is that single as a Python float. *)
Definition to_single (f : float) : float :=
  FloatOps.SF2Prim
    match FloatOps.Prim2SF f with
    | SpecFloat.S754_finite s m e => SpecFloat.binary_round 24 128 s m e
    | sf => sf
    end.

(** A vector as the field keeps it. *)
Definition stored (v : list float) : list float := to_single <$> v.

End Coin.

(** A point object as the trackers hand it around: a FreeCAD vector that
    may carry the attribute [is_end_node].  [None] is an object without
    the attribute (reading it raises [AttributeError]); the vectors that
    [sub], [add] and [Vector(...)] build are such objects. *)
Record Point := mkPoint {
  coords : FreeCAD.Vector;
  is_end_node : option bool
}.

Definition plain (v : FreeCAD.Vector) : Point := mkPoint v None.

Inductive Value :=
| VNone
| VNum (f : float)
| VStr (s : string)
| VPoint (p : Point).

(** Python truth value: [None], [0.0] (and [-0.0]) and the empty string
    are falsy; a NaN and every vector are truthy. *)
Definition truthy (v : Value) : bool :=
  match v with
  | VNone => false
  | VNum f => negb (PrimFloat.eqb f 0)
  | VStr s => negb (String.eqb s "")
  | VPoint _ => true
  end.

(** [v == math.inf] *)
Definition eq_inf (v : Value) : bool :=
  match v with
  | VNum f => PrimFloat.eqb f infinity
  | _ => false
  end.

(** [v == s] for a string literal [s] *)
Definition eq_str (v : Value) (s : string) : bool :=
  match v with
  | VStr t => String.eqb t s
  | _ => false
  end.

(** [v <= f]: ordering a non-number against a float is a [TypeError]. *)
Definition py_le (v : Value) (f : float) : Outcome bool :=
  match v with
  | VNum g => Return (PrimFloat.leb g f)
  | _ => Raise TypeError
  end.

Definition as_num (v : Value) : Outcome float :=
  match v with
  | VNum g => Return g
  | _ => Raise TypeError
  end.

(** [v.sub], [v.add], [v.distanceToPoint] need a vector. *)
Definition as_vector (v : Value) : Outcome FreeCAD.Vector :=
  match v with
  | VPoint p => Return (coords p)
  | _ => Raise (AttributeError "sub")
  end.

(** [v.is_end_node] *)
Definition get_is_end_node (v : Value) : Outcome bool :=
  match v with
  | VPoint p =>
      match is_end_node p with
      | Some b => Return b
      | None => Raise (AttributeError "is_end_node")
      end
  | _ => Raise (AttributeError "is_end_node")
  end.

(** A curve is a dictionary. *)
Abbreviation Curve := (gmap string Value).

(** [d[k]] *)
Definition getitem (d : Curve) (k : string) : Outcome Value :=
  match d !! k with
  | Some v => Return v
  | None => Raise (KeyError k)
  end.

(** [d.get(k)] *)
Definition dict_get (d : Curve) (k : string) : Value :=
  default VNone (d !! k).

(** [l[i]] with Python's negative indices. *)
Definition py_index {A} (l : list A) (i : Z) : Outcome A :=
  let n := Z.of_nat (length l) in
  let j := if (i <? 0)%Z then (i + n)%Z else i in
  if (j <? 0)%Z then Raise IndexError
  else match l !! Z.to_nat j with
       | Some a => Return a
       | None => Raise IndexError
       end.

(** ** The geometry kernel

    [support.get_bearing], [arc.get_parameters], [arc.get_points],
    [spiral.solve_unk_length], [spiral.get_points] and
    [spiral.get_ordered_tangents] live in [freecad/trails/geometry],
    outside the files embedded here: the tracker is parametrised by them.
    They are functions of their argument (the specification's kernel
    contract: pure functions). *)
Record Kernel := {
  get_bearing : FreeCAD.Vector -> float;
  arc_get_parameters : Curve -> Outcome Curve;
  arc_get_points : Curve -> Outcome (list FreeCAD.Vector);
  spiral_solve_unk_length : Curve -> Outcome Curve;
  spiral_get_points : Curve -> Outcome (list FreeCAD.Vector);
  spiral_get_ordered_tangents : Curve -> Outcome (float * float)
}.

(** ** Tracker objects owned by a curve tracker *)

(** [NodeTracker]: its names, the coordinate it shows and its selection
    state (a string, compared against ['SELECTED']). *)
Record NodeTracker := mkNodeTracker {
  nt_names : list string;
  nt_point : Value;
  nt_state : string
}.

(** The styles of [CoinStyle] the trackers are drawn in. *)
Inductive CoinStyle := DEFAULT | ERROR.

Definition style_is_error (s : CoinStyle) : bool :=
  match s with ERROR => true | DEFAULT => false end.

(** [WireTracker]: its names, whether it can be selected, the node
    trackers it selects with, its points and the style set on it. *)
Record WireTracker := mkWireTracker {
  wt_names : list Value;
  wt_selectable : bool;
  wt_selection_nodes : list NodeTracker;
  wt_points : list Value;
  wt_style : CoinStyle
}.

(** The dictionary [{'Nodes': ..., 'Wires': ..., 'Curve': ...}]. *)
Record Trackers := mkTrackers {
  Nodes : list NodeTracker;
  Wires : list WireTracker;
  CurveWires : list WireTracker
}.

(** [MouseState]: only [button1.dragging] is read by the tracker. *)
Record MouseState := mkMouseState {
  button1_pressed : bool;
  button1_dragging : bool;
  mouse_pos : Z * Z
}.

(** The event dictionary FreeCAD passes to a callback ([button_down] is
    its button state), with the cursor position [view.getCursorPos()]
    reports during it. *)
Record Event := mkEvent {
  CtrlDown : bool;
  ShiftDown : bool;
  button_down : bool;
  cursor : Z * Z
}.

Record CurveTracker := mkCurveTracker {
  curve : Curve;
  pi_nodes : list Point;
  names : list string;
  mouse : MouseState;
  user_dragging : bool;
  is_valid : bool;
  state : string;
  trackers : Trackers;
  redraws : nat
}.

Definition set_curve (c : Curve) (self : CurveTracker) : CurveTracker :=
  mkCurveTracker c (pi_nodes self) (names self) (mouse self)
    (user_dragging self) (is_valid self) (state self) (trackers self)
    (redraws self).

Definition set_trackers (t : Trackers) (self : CurveTracker) : CurveTracker :=
  mkCurveTracker (curve self) (pi_nodes self) (names self) (mouse self)
    (user_dragging self) (is_valid self) (state self) t (redraws self).

Definition set_mouse (m : MouseState) (self : CurveTracker) : CurveTracker :=
  mkCurveTracker (curve self) (pi_nodes self) (names self) m
    (user_dragging self) (is_valid self) (state self) (trackers self)
    (redraws self).

Definition set_user_dragging (b : bool) (self : CurveTracker) : CurveTracker :=
  mkCurveTracker (curve self) (pi_nodes self) (names self) (mouse self)
    b (is_valid self) (state self) (trackers self) (redraws self).

Definition set_state (s : string) (self : CurveTracker) : CurveTracker :=
  mkCurveTracker (curve self) (pi_nodes self) (names self) (mouse self)
    (user_dragging self) (is_valid self) s (trackers self) (redraws self).

Definition redraw (self : CurveTracker) : CurveTracker :=
  mkCurveTracker (curve self) (pi_nodes self) (names self) (mouse self)
    (user_dragging self) (is_valid self) (state self) (trackers self)
    (S (redraws self)).

(** ** CurveTracker: rebuilding the curve *)

Section Tracker.

Context (K : Kernel).

(** [MouseState.update(arg, pos)] belongs to [project/support/mouse_state.py],
    outside the files embedded here. *)
Context (mouse_update : MouseState -> Event -> MouseState).

(** [self.pi_nodes[i].get()] *)
Definition pi_node (self : CurveTracker) (i : Z) : Outcome Point :=
  py_index (pi_nodes self) i.

(** The test of [_generate_spiral] (lines 281-282):
    [not self.curve.get('StartRadius') or self.curve['StartRadius'] == math.inf].
    When the first disjunct is false the key is present, so the second
    lookup cannot raise. *)
Definition start_radius_unknown (c : Curve) : bool :=
  negb (truthy (dict_get c "StartRadius")) || eq_inf (dict_get c "StartRadius").

(** [_pi.sub(Vector(_pi.sub(_start)).multiply(_start.distanceToPoint(_pi) / 2.0))] *)
Definition toward_start (_pi _start : FreeCAD.Vector) : FreeCAD.Vector :=
  FreeCAD.sub _pi
    (FreeCAD.multiply (FreeCAD.sub _pi _start)
       (FreeCAD.distanceToPoint _start _pi / 2)%float).

(** [_pi.add(Vector(_end.sub(_pi)).multiply(_end.distanceToPoint(_pi) / 2.0))] *)
Definition toward_end (_pi _end : FreeCAD.Vector) : FreeCAD.Vector :=
  FreeCAD.add _pi
    (FreeCAD.multiply (FreeCAD.sub _end _pi)
       (FreeCAD.distanceToPoint _end _pi / 2)%float).

(** [_generate_spiral], lines 274-316: the key of the known radius and
    the dictionary handed to [spiral.solve_unk_length]. *)
Definition _generate_spiral_args (self : CurveTracker)
  : Outcome (string * Curve) :=
  _start ← pi_node self 0;
  _pi ← pi_node self 1;
  _end ← pi_node self 2;
  if start_radius_unknown (curve self) then (
    let _key := "EndRadius" in
    _end ← getitem (curve self) "End";
    b ← get_is_end_node (VPoint _start);
    let _start :=
      if (b : bool) then plain (toward_start (coords _pi) (coords _start))
      else _start in
    r ← getitem (curve self) _key;
    mret (_key,
          <[_key := r]> (<["End" := _end]> (<["Start" := VPoint _start]>
            (<["PI" := VPoint _pi]> (∅ : Curve))))))
  else (
    let _key := "StartRadius" in
    _start ← getitem (curve self) "Start";
    b ← get_is_end_node _start;
    let _end :=
      if (b : bool) then plain (toward_end (coords _pi) (coords _end))
      else _end in
    r ← getitem (curve self) _key;
    mret (_key,
          <[_key := r]> (<["End" := VPoint _end]> (<["Start" := _start]>
            (<["PI" := VPoint _pi]> (∅ : Curve)))))).

(** [_generate_spiral]: solve, and fall back on [self.curve] when a
    tangent of the solution is not positive.  Python's [or] does not
    read ['TanLong'] when the first comparison holds. *)
Definition _generate_spiral (self : CurveTracker) : Outcome Curve :=
  a ← _generate_spiral_args self;
  _curve ← spiral_solve_unk_length K a.2;
  ts ← getitem _curve "TanShort";
  short_bad ← py_le ts 0;
  if (short_bad : bool) then mret (curve self)
  else (
    tl ← getitem _curve "TanLong";
    long_bad ← py_le tl 0;
    if (long_bad : bool) then mret (curve self) else mret _curve).

Definition _generate_arc (self : CurveTracker) : Outcome Curve :=
  _start ← pi_node self 0;
  _pi ← pi_node self 1;
  _end ← pi_node self 2;
  r ← getitem (curve self) "Radius";
  arc_get_parameters K
    (<["Radius" := r]> (<["PI" := VPoint _pi]>
      (<["BearingOut" :=
           VNum (get_bearing K (FreeCAD.sub (coords _end) (coords _pi)))]>
        (<["BearingIn" :=
             VNum (get_bearing K (FreeCAD.sub (coords _pi) (coords _start)))]>
          (∅ : Curve))))).

(** *** [build_trackers] *)

Fixpoint mapO {A B} (f : A -> Outcome B) (l : list A) : Outcome (list B) :=
  match l with
  | [] => mret []
  | a :: l' => b ← f a; bs ← mapO f l'; mret (b :: bs)
  end.

(** [l[:-1]] *)
Definition but_last {A} (l : list A) : list A := take (length l - 1) l.

(** [_names = names[:]; _names[-1] = _names[-1] + '-' + suffix] *)
Definition tag_last (names : list string) (suffix : string)
  : Outcome (list string) :=
  match last names with
  | Some n => mret (but_last names ++ [n +:+ "-" +:+ suffix])%list
  | None => Raise IndexError
  end.

Definition _node_names : list string :=
  ["Center"; "Start"; "End"; "PI"; "Center"].

Definition _wires : list (string * Z * Z) :=
  [("Start Radius", 1, 0); ("Start Tangent", 1, 3);
   ("End Radius", 2, 0); ("End Tangent", 2, 3)]%Z.

(** [NodeTracker(view, names, point)] followed by [update(point)]; a new
    node tracker is not selected. *)
Definition new_node (names : list string) (pt : Value) : NodeTracker :=
  mkNodeTracker names pt "UNSELECTED".

(** [_build_wire_tracker] *)
Definition _build_wire_tracker (wire_name : list Value)
    (nodes : list NodeTracker) (points : list Value) (select : bool)
  : WireTracker :=
  mkWireTracker wire_name select nodes points DEFAULT.

Definition build_nodes (names : list string) (coords3 : list Value)
  : Outcome (list NodeTracker) :=
  mapO (fun ip : nat * Value =>
          _names ← tag_last names (default "" (_node_names !! ip.1));
          mret (new_node _names ip.2))
       (imap (fun i pt => (i, pt)) coords3).

Definition build_wires (names : list string) (nodes : list NodeTracker)
    (_coords : list Value) : Outcome (list WireTracker) :=
  mapO (fun w : string * Z * Z =>
          a ← py_index _coords w.1.2;
          b ← py_index _coords w.2;
          mret (_build_wire_tracker ((VStr <$> names) ++ [VStr w.1.1])%list nodes [a; b]
                  false))
       _wires.

Definition build_trackers_result (self : CurveTracker) : Outcome Trackers :=
  _coords ← mapO (getitem (curve self)) (but_last _node_names);
  nodes ← build_nodes (names self) (but_last _coords);
  wires ← build_wires (names self) nodes _coords;
  ty ← getitem (curve self) "Type";
  _points ← (if eq_str ty "Spiral" then spiral_get_points K (curve self)
             else arc_get_points K (curve self));
  mret (mkTrackers nodes wires
          [_build_wire_tracker ((VStr <$> names self) ++ [ty])%list nodes
             (VPoint ∘ plain <$> _points) true]).

(** [self.trackers] is assigned by the last statement only. *)
Definition build_trackers (self : CurveTracker)
  : Outcome unit * CurveTracker :=
  match build_trackers_result self with
  | Return t => (Return (), set_trackers t self)
  | Raise e => (Raise e, self)
  end.

(** *** [update] *)

Definition update (self : CurveTracker) : Outcome unit * CurveTracker :=
  match getitem (curve self) "Type" with
  | Raise e => (Raise e, self)
  | Return ty =>
      match (if eq_str ty "Spiral" then _generate_spiral self
             else _generate_arc self) with
      | Raise e => (Raise e, self)
      | Return c => build_trackers (set_curve c self)
      end
  end.

(** The curve [update] assigns to [self.curve], when it gets that far. *)
Definition rebuilt (self : CurveTracker) : Outcome Curve :=
  ty ← getitem (curve self) "Type";
  if eq_str ty "Spiral" then _generate_spiral self
  else _generate_arc self.

(** *** Drag operations: every body is [pass] in the shipped file; the
    algorithm is kept in comments only. *)

Definition start_drag (self : CurveTracker) : CurveTracker := self.

Definition on_drag (do_rotation modify : bool) (self : CurveTracker)
  : CurveTracker := self.

Definition end_drag (self : CurveTracker) : CurveTracker := self.

Definition _validate_curve (curves : list Curve) (self : CurveTracker)
  : CurveTracker := self.

(** *** Input callbacks *)

(** [_update_status_bar(info)]: its body is [pass] too. *)
Definition _update_status_bar (self : CurveTracker) : CurveTracker := self.

Definition mouse_event (arg : Event) (self : CurveTracker) : CurveTracker :=
  let self := set_mouse (mouse_update (mouse self) arg) self in
  let self := _update_status_bar self in
  if button1_dragging (mouse self) then
    if user_dragging self then
      redraw (on_drag (CtrlDown arg) (ShiftDown arg) self)
    else
      set_user_dragging true (start_drag self)
  else self.

Definition selected (n : NodeTracker) : bool :=
  String.eqb (nt_state n) "SELECTED".

Definition button_event (arg : Event) (self : CurveTracker) : CurveTracker :=
  let self := set_mouse (mouse_update (mouse self) arg) self in
  let _states := selected <$> Nodes (trackers self) in
  let self :=
    if forallb id _states then set_state "SELECTED" self
    else if existsb id _states then set_state "PARTIAL" self
    else set_state "UNSELECTED" self in
  if user_dragging self && negb (button1_dragging (mouse self)) then
    set_user_dragging false (end_drag self)
  else self.

Inductive Input :=
| Motion (arg : Event)
| Button (arg : Event).

Definition handle (i : Input) (self : CurveTracker) : CurveTracker :=
  match i with
  | Motion arg => mouse_event arg self
  | Button arg => button_event arg self
  end.

(** The callbacks run one after the other, in arrival order. *)
Definition run (inputs : list Input) (self : CurveTracker) : CurveTracker :=
  foldl (fun s i => handle i s) self inputs.

End Tracker.

(** ** The chain validator kept in the comments of [_validate_curve]

    The shipped body of [_validate_curve] is [pass] (see above).  Lines
    653-736 keep the algorithm as comments; it is transcribed here under
    a name of its own.  It reads [self.drag.curves], [self.curves] and
    [self.drag.pi], attributes the shipped class never sets: they are
    arguments. *)

(** [l[i] = v] with Python's negative indices. *)
Definition py_setitem {A} (l : list A) (i : Z) (v : A) : Outcome (list A) :=
  let n := Z.of_nat (length l) in
  let j := if (i <? 0)%Z then (i + n)%Z else i in
  if ((j <? 0) || (n <=? j))%Z then Raise IndexError
  else Return (<[Z.to_nat j := v]> l).

(** [a + b] on numbers *)
Definition py_add (a b : Value) : Outcome float :=
  x ← as_num a; y ← as_num b; mret (x + y)%float.

(** [v > f] *)
Definition py_gt (v : Value) (f : float) : Outcome bool :=
  match v with
  | VNum g => Return (PrimFloat.ltb f g)
  | _ => Raise TypeError
  end.

Record Validation := mkValidation {
  set_style_calls : list (Z * CoinStyle);
  validation_is_valid : bool
}.

Section DisabledValidator.

Context (K : Kernel).

(** [_tangents[0]] for the first curve of a pair (lines 679-683) *)
Definition tangent_0 (c : Curve) : Outcome Value :=
  ty ← getitem c "Type";
  if eq_str ty "Spiral" then
    (t ← spiral_get_ordered_tangents K c; mret (VNum t.1))
  else getitem c "Tangent".

(** [_tangents[1]] for the second curve of a pair (lines 685-689) *)
Definition tangent_1 (c : Curve) : Outcome Value :=
  ty ← getitem c "Type";
  if eq_str ty "Spiral" then
    (t ← spiral_get_ordered_tangents K c; mret (VNum t.2))
  else getitem c "Tangent".

(** [c0['PI'].distanceToPoint(c1['PI'])] *)
Definition pi_distance (c0 c1 : Curve) : Outcome float :=
  p0 ← getitem c0 "PI"; v0 ← as_vector p0;
  p1 ← getitem c1 "PI"; v1 ← as_vector p1;
  mret (FreeCAD.distanceToPoint v0 v1).

(** The test of lines 691-692:
    [(_tangents[0] + _tangents[1]) > (_c[0]['PI'].distanceToPoint(_c[1]['PI']))] *)
Definition pair_exceeds (c0 c1 : Curve) : Outcome bool :=
  t0 ← tangent_0 c0;
  t1 ← tangent_1 c1;
  sum ← py_add t0 t1;
  d ← pi_distance c0 c1;
  mret (PrimFloat.ltb d sum).

(** The loop of lines 673-695, entered at index [i] with [curves[i:]]. *)
Fixpoint check_pairs (curves : list Curve) (i : nat)
    (_styles : list CoinStyle) : Outcome (list CoinStyle) :=
  match curves with
  | c0 :: rest =>
      match rest with
      | c1 :: _ =>
          b ← pair_exceeds c0 c1;
          check_pairs rest (S i)
            (if (b : bool) then <[i := ERROR]> (<[S i := ERROR]> _styles)
             else _styles)
      | [] => mret _styles
      end
  | [] => mret _styles
  end.

(** Lines 661-667: one neighbour is added, in front when the first
    updated curve is not the first of the chain, else behind. *)
Definition extend (_idx : list Z) (self_curves curves : list Curve)
  : Outcome (list Z * list Curve) :=
  first ← py_index _idx 0;
  if (0 <? first)%Z then
    (c ← py_index self_curves (first - 1);
     mret ((first - 1)%Z :: _idx, c :: curves))
  else
    (lst ← py_index _idx (-1);
     if (lst <? Z.of_nat (length self_curves) - 1)%Z then
       (c ← py_index self_curves (lst + 1);
        mret ((_idx ++ [(lst + 1)%Z])%list, (curves ++ [c])%list))
     else mret (_idx, curves)).

(** One round of the loop of lines 708-729. *)
Definition endpoint_check (curves : list Curve) (drag_pi : list Point)
    (_styles : list CoinStyle) (_i : Z) : Outcome (list CoinStyle) :=
  _c ← py_index curves _i;
  _p ← py_index drag_pi _i;
  ty ← getitem _c "Type";
  _tangent ← (if eq_str ty "Spiral" then
                (_tans ← spiral_get_ordered_tangents K _c;
                 mret (VNum (if (_i =? 0)%Z then _tans.1 else _tans.2)))
              else getitem _c "Tangent");
  s ← py_index _styles _i;
  if style_is_error s then mret _styles
  else
    (pv ← getitem _c "PI"; v ← as_vector pv;
     over ← py_gt _tangent (FreeCAD.distanceToPoint v (coords _p));
     if (over : bool) then py_setitem _styles _i ERROR else mret _styles).

Fixpoint endpoint_checks (curves : list Curve) (drag_pi : list Point)
    (_x : list Z) (_styles : list CoinStyle) : Outcome (list CoinStyle) :=
  match _x with
  | [] => mret _styles
  | _i :: rest =>
      s ← endpoint_check curves drag_pi _styles _i;
      endpoint_checks curves drag_pi rest s
  end.

(** Lines 653-736.  [None] is the early return of line 655-657, which
    sets [is_valid] and styles nothing. *)
Definition validate_curve_disabled (drag_curves : list Z)
    (self_curves : list Curve) (drag_pi : list Point) (curves : list Curve)
  : Outcome Validation :=
  match drag_curves with
  | [] => mret (mkValidation [] true)
  | _ =>
      e ← extend drag_curves self_curves curves;
      let _idx := e.1 in
      let curves := e.2 in
      _styles ← check_pairs curves 0 (replicate (length curves) DEFAULT);
      first ← py_index _idx 0;
      lst ← py_index _idx (-1);
      let _x :=
        ((if (first =? 0)%Z then [0%Z] else []) ++
         (if (lst =? Z.of_nat (length self_curves) - 1)%Z then [(-1)%Z]
          else []))%list in
      _styles ← endpoint_checks curves drag_pi _x _styles;
      mret (mkValidation
              (imap (fun i s => ((first + Z.of_nat i)%Z, s)) _styles)
              (forallb (fun s => negb (style_is_error s)) _styles))
  end.

End DisabledValidator.

(** ** EditSurface.SwapEdge *)

Module EditSurface.

(** What [SwapEdge.SwapEdge(cb)] reads from the callback: the button or
    key, its state, and the detail of the picked point (if any);
    [NoDetail] is a picked point whose [getDetail()] is [None]. *)
Inductive Action := ESCAPE | BUTTON1 | OtherAction.

Inductive Detail :=
| FaceDetail (index : Z)
| OtherDetail
| NoDetail.

Record Callback := mkCallback {
  action : Action;
  down : bool;
  pickedPoint : option Detail
}.

Definition unswappable_message : string :=
  "The edge between these triangles cannot be swappable".

Section SwapEdge.

(** [Mesh.Mesh] is FreeCAD's.  [swapEdge] either changes the mesh or
    raises, which is [None]: an exception leaves the receiver as it was.
    [copy()] yields a mesh with the same content. *)
Context {Mesh : Type}.
Context (swapEdge : Mesh -> Z -> Z -> option Mesh).

(** The command object with what it acts on: the meshes of the selected
    surfaces ([Selection.getSelection()], one [surface.Mesh] each), the
    text printed so far and whether the callback [MC] is registered. *)
Record Command := mkCommand {
  FaceIndexes : list Z;
  selection : list Mesh;
  printed : list string;
  callback_registered : bool
}.

Definition SwapEdge (cb : Callback) (self : Command)
  : Outcome unit * Command :=
  match action cb, down cb with
  | ESCAPE, true =>
      (Return (),
       mkCommand (FaceIndexes self) (selection self) (printed self) false)
  | BUTTON1, true =>
      match pickedPoint cb with
      | Some (FaceDetail index) =>
          let indexes := (FaceIndexes self ++ [index])%list in
          let self :=
            mkCommand indexes (selection self) (printed self)
              (callback_registered self) in
          match indexes with
          | [i0; i1] =>
              match py_index (selection self) (-1) with
              | Return mesh =>
                  let CopyMesh := mesh in
                  let swapped := swapEdge CopyMesh i0 i1 in
                  let out :=
                    match swapped with
                    | Some _ => printed self
                    | None => (printed self ++ [unswappable_message])%list
                    end in
                  (Return (),
                   mkCommand []
                     (<[(length (selection self) - 1)%nat :=
                          default CopyMesh swapped]> (selection self))
                     out (callback_registered self))
              | Raise e => (Raise e, self)
              end
          | _ => (Return (), self)
          end
      | Some NoDetail => (Raise (AttributeError "isOfType"), self)
      | _ => (Return (), self)
      end
  | _, _ => (Return (), self)
  end.

(** [SwapEdge.Activated]: the picked faces are forgotten and the
    callback is registered. *)
Definition Activated (self : Command) : Command :=
  mkCommand [] (selection self) (printed self) true.

(** The view calls a registered callback once per button or key event;
    an exception ends that call only. *)
Definition SwapEdge_events (cbs : list Callback) (self : Command)
  : Command :=
  foldl (fun s cb => if callback_registered s then (SwapEdge cb s).2 else s)
    self cbs.

(** [Mesh.insertVertex(facet, point)] is FreeCAD's too; [None] is an
    exception. *)
Context (insertVertex : Mesh -> Z -> FreeCAD.Vector -> option Mesh).

(** The [AddPoint] command with what it acts on. *)
Record AddPointCommand := mkAddPoint {
  ap_selection : list Mesh;
  ap_registered : bool
}.

(** [AddPoint.add_point(cb)].  [obj] is what
    [view.getObjectInfo(view.getCursorPos())] returns: the point under
    the cursor, or [None].  Nothing catches an exception here: the mesh
    is assigned only when [insertVertex] returns. *)
Definition add_point (cb : Callback) (obj : option FreeCAD.Vector)
    (self : AddPointCommand) : Outcome unit * AddPointCommand :=
  match action cb, down cb with
  | ESCAPE, true => (Return (), mkAddPoint (ap_selection self) false)
  | BUTTON1, true =>
      match pickedPoint cb with
      | Some (FaceDetail index) =>
          match obj with
          | None => (Raise TypeError, self)
          | Some curpos =>
              match py_index (ap_selection self) (-1) with
              | Return mesh =>
                  let copy_mesh := mesh in
                  match insertVertex copy_mesh index curpos with
                  | Some m =>
                      (Return (),
                       mkAddPoint
                         (<[(length (ap_selection self) - 1)%nat := m]>
                            (ap_selection self))
                         (ap_registered self))
                  | None => (Raise (KernelError "insertVertex"), self)
                  end
              | Raise e => (Raise e, self)
              end
          end
      | Some NoDetail => (Raise (AttributeError "isOfType"), self)
      | _ => (Return (), self)
      end
  | _, _ => (Return (), self)
  end.

End SwapEdge.

(** A small triangle mesh to run [SwapEdge] on: facets are triples of
    point indices.  [swapEdge] raises unless both facet indices are in
    range and the facets share exactly one edge, and then replaces the
    shared edge by the other diagonal. *)
Definition Facet : Type := Z * Z * Z.
Definition TriMesh := list Facet.

Definition corners (f : Facet) : list Z := [f.1.1; f.1.2; f.2].

Definition shared (f g : Facet) : list Z :=
  filter (fun v => bool_decide (v ∈ corners g)) (corners f).

Definition apart (f g : Facet) : list Z :=
  filter (fun v => bool_decide (v ∉ corners g)) (corners f).

Definition tri_swapEdge (m : TriMesh) (i j : Z) : option TriMesh :=
  if ((i <? 0) || (j <? 0))%Z then None
  else
    f ← m !! Z.to_nat i;
    g ← m !! Z.to_nat j;
    match shared f g, apart f g, apart g f with
    | [a; b], [c], [d] =>
        Some (<[Z.to_nat j := (d, c, b)]> (<[Z.to_nat i := (c, d, a)]> m))
    | _, _, _ => None
    end.

End EditSurface.

(** ** trackers2.core.geometry.Geometry *)

Module Geometry.

(** A coordinate is a tuple of floats. *)
Definition Tuple := list float.

(** The argument [coordinates]: [None], a list of tuples or one tuple. *)
Inductive Coordinates :=
| CNone
| CList (l : list Tuple)
| CTuple (t : Tuple).

(** [not coordinates] is true for [None], [[]] and [()] *)
Definition falsy (c : Coordinates) : bool :=
  match c with
  | CNone => true
  | CList l => bool_decide (l = [])
  | CTuple t => match t with [] => true | _ => false end
  end.

(** A call of [Signal.dispatch(event, (name, coordinates), False)]. *)
Record Dispatch := mkDispatch {
  event : string;
  sender : string;
  payload : list Tuple
}.

(** [coordinate_node] is [None] for a geometry whose constructor
    returned before it made its nodes; [Some pts] is the content of
    [coordinate_node.point]. *)
Record Geometry := mkGeometry {
  name : string;
  do_publish : bool;
  coordinate_node : option (list Tuple);
  dispatched : list Dispatch
}.

(** [SoMFVec3f.setValues(values)] writes from index 0 and never shortens
    the field; the values are kept in single precision. *)
Definition setValues (values old : list Tuple) : list Tuple :=
  (Coin.stored <$> values) ++ drop (length values) old.

Definition set_coordinates (coordinates : Coordinates) (do_notify : bool)
    (self : Geometry) : Outcome unit * Geometry :=
  if falsy coordinates then (Return (), self)
  else
    let coordinates :=
      match coordinates with
      | CList l => l
      | CTuple t => [t]
      | CNone => []
      end in
    match coordinate_node self with
    | None => (Raise (AttributeError "coordinate_node"), self)
    | Some pts =>
        let self :=
          mkGeometry (name self) (do_publish self)
            (Some (setValues coordinates pts)) (dispatched self) in
        if do_notify && do_publish self then
          (Return (),
           mkGeometry (name self) (do_publish self) (coordinate_node self)
             (dispatched self ++
                [mkDispatch "NODE.UPDATED" (name self) coordinates]))
        else (Return (), self)
    end.

(** [get(_dtype=tuple)]: the values of the coordinate node, as tuples. *)
Definition get (self : Geometry) : Outcome (list Tuple) :=
  match coordinate_node self with
  | Some pts => Return pts
  | None => Raise (AttributeError "coordinate_node")
  end.

End Geometry.

(** ** trackers2.core.marker.Marker *)

Module Marker.

(** What [update] may be given as one coordinate: [None], a tuple, or an
    iterable that is not a tuple (a vector, a list of floats). *)
Inductive Item :=
| INone
| ITuple (t : Geometry.Tuple)
| IIter (t : Geometry.Tuple).

(** The argument [coord]: one coordinate or a list of them. *)
Inductive Coord :=
| One (i : Item)
| Many (l : list Item).

(** [not coord] *)
Definition falsy (i : Item) : bool :=
  match i with
  | INone => true
  | ITuple t | IIter t => match t with [] => true | _ => false end
  end.

(** The marker: its point, its drag point, its end-node flag and the
    geometry it inherits. *)
Record Marker := mkMarker {
  point : Geometry.Tuple;
  drag_point : Geometry.Tuple;
  is_end_node : bool;
  geometry : Geometry.Geometry
}.

(** [Marker.update(coord=None, do_notify=False)].  A list is replaced by
    its first element; a falsy coordinate by the marker's point; an
    iterable that is not a tuple by the tuple of its values.  The point
    and the drag point are assigned before the coordinate node is
    written. *)
Definition update (coord : Coord) (do_notify : bool) (self : Marker)
  : Outcome unit * Marker :=
  match (match coord with
         | Many l => py_index l 0
         | One i => Return i
         end) with
  | Raise e => (Raise e, self)
  | Return coord =>
      let _c :=
        if falsy coord then point self
        else match coord with
             | ITuple t | IIter t => t
             | INone => point self
             end in
      let r :=
        Geometry.set_coordinates (Geometry.CTuple _c) do_notify
          (geometry self) in
      (r.1, mkMarker _c _c (is_end_node self) r.2)
  end.

End Marker.

(** ** Instances to run the embedding on

    A stand-in kernel and mouse tracker, used to evaluate the tracker on
    concrete chains.  The stand-in solver keeps the dictionary it is
    given and adds the tangents: the distance from the PI to each end,
    shortened by a tenth of the known radius. *)

Module Sample.

Definition known_radius (a : Curve) : Outcome float :=
  match a !! "EndRadius" with
  | Some v => as_num v
  | None => r ← getitem a "StartRadius"; as_num r
  end.

Definition solve_unk_length (a : Curve) : Outcome Curve :=
  p ← getitem a "PI"; vp ← as_vector p;
  s ← getitem a "Start"; vs ← as_vector s;
  e ← getitem a "End"; ve ← as_vector e;
  r ← known_radius a;
  mret (<["Type" := VStr "Spiral"]>
         (<["TanShort" := VNum (FreeCAD.distanceToPoint vp ve - r / 10)]>
           (<["TanLong" := VNum (FreeCAD.distanceToPoint vp vs - r / 10)]>
              a))).

Definition get_parameters (a : Curve) : Outcome Curve :=
  r ← getitem a "Radius"; x ← as_num r;
  mret (<["Type" := VStr "Arc"]> (<["Tangent" := VNum (x / 2)]> a)).

Definition get_points (c : Curve) : Outcome (list FreeCAD.Vector) :=
  s ← getitem c "Start"; vs ← as_vector s;
  e ← getitem c "End"; ve ← as_vector e;
  mret [vs; ve].

Definition get_ordered_tangents (c : Curve) : Outcome (float * float) :=
  a ← getitem c "TanLong"; x ← as_num a;
  b ← getitem c "TanShort"; y ← as_num b;
  mret (x, y).

Definition kernel : Kernel := {|
  get_bearing := fun v => (FreeCAD.x v / FreeCAD.y v)%float;
  arc_get_parameters := get_parameters;
  arc_get_points := get_points;
  spiral_solve_unk_length := solve_unk_length;
  spiral_get_points := get_points;
  spiral_get_ordered_tangents := get_ordered_tangents
|}.

(** Button 1 drags when it was pressed before this event and is still
    down. *)
Definition mouse_update (m : MouseState) (arg : Event) : MouseState :=
  mkMouseState (button_down arg) (button1_pressed m && button_down arg)
    (cursor arg).

Definition pt (a b : float) (end_node : bool) : Point :=
  mkPoint (FreeCAD.mkVector a b 0) (Some end_node).

Definition idle_mouse : MouseState := mkMouseState false false (0, 0)%Z.

Definition no_trackers : Trackers := mkTrackers [] [] [].

(** A spiral between (0,0), (100,0) and (100,100), known end radius. *)
Definition spiral_curve (end_radius : float) : Curve :=
  <["Type" := VStr "Spiral"]>
    (<["EndRadius" := VNum end_radius]>
      (<["PI" := VPoint (plain (FreeCAD.mkVector 100 0 0))]>
        (<["Start" := VPoint (plain (FreeCAD.mkVector 0 0 0))]>
          (<["End" := VPoint (plain (FreeCAD.mkVector 100 50 0))]>
            (<["Center" := VPoint (plain (FreeCAD.mkVector 0 50 0))]>
               (∅ : Curve)))))).

Definition tracker (c : Curve) (start_is_end end_is_end : bool)
  : CurveTracker :=
  mkCurveTracker c
    [pt 0 0 start_is_end; pt 100 0 false; pt 100 100 end_is_end]
    ["Alignment"; "Curve0"] idle_mouse false true "UNSELECTED" no_trackers 0.

(** The three node trackers of a curve (centre, start, end) in the
    given selection states. *)
Definition nodes_in (states : list string) : Trackers :=
  mkTrackers
    (imap (fun i st =>
             mkNodeTracker ["Alignment"; "Curve0-" +:+ default "" (_node_names !! i)]
               VNone st)
          states)
    [] [].

Definition pressed_mouse : MouseState := mkMouseState true false (0, 0)%Z.

(** A tracker whose button 1 is held down, before the pointer moves. *)
Definition held (states : list string) (valid : bool) : CurveTracker :=
  mkCurveTracker (spiral_curve 50)
    [pt 0 0 true; pt 100 0 false; pt 100 100 false]
    ["Alignment"; "Curve0"] pressed_mouse false valid "UNSELECTED"
    (nodes_in states) 0.

(** The tracker of the sample spiral with its trackers built. *)
Definition built : CurveTracker :=
  (build_trackers kernel (tracker (spiral_curve 50) true false)).2.

(** An arc with its PI at [(px, 0)] and the given tangent length. *)
Definition arc_at (px tangent : float) : Curve :=
  <["Type" := VStr "Arc"]>
    (<["PI" := VPoint (plain (FreeCAD.mkVector px 0 0))]>
      (<["Tangent" := VNum tangent]>
        (<["Radius" := VNum 50]> (∅ : Curve)))).

(** The arc at (0, 0) with the points [build_trackers] needs, and its
    tracker with the trackers built. *)
Definition first_arc : Curve :=
  <["Center" := VPoint (plain (FreeCAD.mkVector 0 50 0))]>
    (<["Start" := VPoint (plain (FreeCAD.mkVector (-60) 0 0))]>
      (<["End" := VPoint (plain (FreeCAD.mkVector 60 0 0))]>
        (arc_at 0 60))).

Definition built_arc : CurveTracker :=
  (build_trackers kernel
     (mkCurveTracker first_arc
        [pt (-100) 0 true; pt 0 0 false; pt 100 0 false]
        ["Alignment"; "Curve0"] idle_mouse false true "UNSELECTED"
        no_trackers 0)).2.

(** A solved spiral with its PI at [(px, 0)], entered from the tangent
    (no start radius), with the given long and short tangents. *)
Definition spiral_at (px tan_long tan_short : float) : Curve :=
  <["Type" := VStr "Spiral"]>
    (<["PI" := VPoint (plain (FreeCAD.mkVector px 0 0))]>
      (<["TanLong" := VNum tan_long]>
        (<["TanShort" := VNum tan_short]>
          (<["EndRadius" := VNum 50]> (∅ : Curve))))).

(** Modelled from the spec: [ordered_tangents(spiral_curve) ->
    (tangent_at_start, tangent_at_end)].  [spiral.get_ordered_tangents]
    is not among the embedded files.  The long tangent of a spiral lies
    at its end of infinite radius: at the start when the start radius
    is unknown, at the end otherwise. *)
Definition ordered_tangents (c : Curve) : Outcome (float * float) :=
  a ← getitem c "TanLong"; x ← as_num a;
  b ← getitem c "TanShort"; y ← as_num b;
  mret (if start_radius_unknown c then (x, y) else (y, x)).

Definition ordering_kernel : Kernel := {|
  get_bearing := get_bearing kernel;
  arc_get_parameters := get_parameters;
  arc_get_points := get_points;
  spiral_solve_unk_length := solve_unk_length;
  spiral_get_points := get_points;
  spiral_get_ordered_tangents := ordered_tangents
|}.

(** Modelled from the spec: of the two radii of a spiral one is the
    known input of a solve and the other is derived.  This solver
    stores the radius it derives (here twice the known one) beside the
    tangents. *)
Definition solve_deriving (a : Curve) : Outcome Curve :=
  c ← solve_unk_length a;
  r ← known_radius a;
  mret (match a !! "EndRadius" with
        | Some _ => <["StartRadius" := VNum (2 * r)]> c
        | None => <["EndRadius" := VNum (2 * r)]> c
        end).

Definition deriving_kernel : Kernel := {|
  get_bearing := get_bearing kernel;
  arc_get_parameters := get_parameters;
  arc_get_points := get_points;
  spiral_solve_unk_length := solve_deriving;
  spiral_get_points := get_points;
  spiral_get_ordered_tangents := get_ordered_tangents
|}.

Definition move_to (pos : Z * Z) : Event := mkEvent false false true pos.

Definition release_at (pos : Z * Z) : Event := mkEvent false false false pos.

End Sample.

(** ** What a rebuild asks of the kernel to be repeatable

    [update] reads back from the curve it installed: the type, the
    radius of an arc, and for a spiral the known radius and the end it
    takes from the curve.  A kernel is stable when the curve it returns
    carries these as they were passed in. *)
Definition kernel_stable (K : Kernel) : Prop :=
  (forall a c, arc_get_parameters K a = Return c ->
     c !! "Radius" = a !! "Radius" /\ c !! "Type" <> Some (VStr "Spiral")) /\
  (forall a c, spiral_solve_unk_length K a = Return c ->
     c !! "Type" = Some (VStr "Spiral") /\
     start_radius_unknown c = start_radius_unknown a /\
     if start_radius_unknown a
     then c !! "End" = a !! "End" /\ c !! "EndRadius" = a !! "EndRadius"
     else c !! "Start" = a !! "Start" /\
          c !! "StartRadius" = a !! "StartRadius").

(** What the input callbacks leave alone: the curve, the PI nodes, the
    trackers (with the node positions and selection states) and the
    validity flag. *)
Definition same_model (s s' : CurveTracker) : Prop :=
  curve s' = curve s /\ pi_nodes s' = pi_nodes s /\
  trackers s' = trackers s /\ is_valid s' = is_valid s.

(** The pair of curves [j], [j + 1] of the list fails the tangent test. *)
Definition pair_over (K : Kernel) (curves : list Curve) (j : nat) : Prop :=
  exists c0 c1,
    curves !! j = Some c0 /\ curves !! S j = Some c1 /\
    pair_exceeds K c0 c1 = Return true.

(** The tangent test can be evaluated on every adjacent pair. *)
Definition pairs_readable (K : Kernel) (curves : list Curve) : Prop :=
  forall j c0 c1,
    curves !! j = Some c0 -> curves !! S j = Some c1 ->
    exists b, pair_exceeds K c0 c1 = Return b.

(** ** commands.wire_tracker.WireTracker *)

Module WireTracker.

(** The two entries of [WireTracker.style]. *)
Inductive Style := style_default | style_moving.

(** An [EditTracker] as the wire tracker makes it: its node name, the
    style set on it and the point it was updated with. *)
Record EditTracker := mkEditTracker {
  et_name : string;
  et_style : Style;
  et_point : FreeCAD.Vector
}.

(** The wire tracker: its edit trackers, [line.numVertices],
    [coords.point], and the edit trackers [finalize()] was called on,
    in call order. *)
Record WireTracker := mkWireTracker {
  edit_trackers : list EditTracker;
  numVertices : nat;
  coords : list (list float);
  finalized : list EditTracker
}.

(** [SoMFVec3f.set1Value(i, v)] writes index [i], growing the field with
    null vectors when [i] is past its end; the value is kept in single
    precision. *)
Definition set1Value (i : nat) (v : list float) (l : list (list float))
  : list (list float) :=
  if (i <? length l)%nat then <[i := Coin.stored v]> l
  else l ++ replicate (i - length l) [0; 0; 0]%float ++ [Coin.stored v].

Section Methods.

(** [C.Z_DEPTH[2]], from [project/support/utils.py]. *)
Context (z_depth : float).

(** [_pt.z = C.Z_DEPTH[2]] *)
Definition set_z (p : FreeCAD.Vector) : FreeCAD.Vector :=
  FreeCAD.mkVector (FreeCAD.x p) (FreeCAD.y p) z_depth.

(** [list(_pt)] *)
Definition as_list (p : FreeCAD.Vector) : list float :=
  [FreeCAD.x p; FreeCAD.y p; FreeCAD.z p].

Definition finalize_edit_trackers (self : WireTracker) : WireTracker :=
  match edit_trackers self with
  | [] => self
  | ets =>
      mkWireTracker [] (numVertices self) (coords self)
        (finalized self ++ ets)
  end.

(** The loop of [update_points], entered at index [_i].  The points are
    the caller's objects: their [z] is overwritten in place, so the
    points after the loop are returned with the tracker. *)
Fixpoint add_edit_trackers (_i : nat) (points : list FreeCAD.Vector)
    (self : WireTracker) : WireTracker * list FreeCAD.Vector :=
  match points with
  | [] => (self, [])
  | _pt :: rest =>
      let _pt := set_z _pt in
      let _et := mkEditTracker ("Node" +:+ pretty _i) style_default _pt in
      let self :=
        mkWireTracker (edit_trackers self ++ [_et]) (numVertices self)
          (set1Value _i (as_list _pt) (coords self)) (finalized self) in
      let r := add_edit_trackers (S _i) rest self in
      (r.1, _pt :: r.2)
  end.

Definition update_points (points : list FreeCAD.Vector)
    (self : WireTracker) : WireTracker * list FreeCAD.Vector :=
  let self :=
    mkWireTracker (edit_trackers self) (length points) (coords self)
      (finalized self) in
  add_edit_trackers 0 points (finalize_edit_trackers self).

(** [update(points=None, placement=None)]: [update_placement] only
    returns, so the placement plays no part. *)
Definition update (points : option (list FreeCAD.Vector))
    (self : WireTracker) : WireTracker * option (list FreeCAD.Vector) :=
  match points with
  | Some (p :: ps) =>
      let r := update_points (p :: ps) self in (r.1, Some r.2)
  | _ => (self, points)
  end.

End Methods.

End WireTracker.

(** An arc as the validator reads it: a ['Type'] other than ['Spiral'],
    a number under ['Tangent'] and a vector under ['PI'].  An arc has
    one tangent length, at both ends: ['Tangent'] is its outgoing and
    its incoming tangent length. *)
Definition is_arc (c : Curve) (tangent : float) (p : FreeCAD.Vector)
  : Prop :=
  (exists ty, c !! "Type" = Some ty /\ eq_str ty "Spiral" = false) /\
  c !! "Tangent" = Some (VNum tangent) /\
  exists q, c !! "PI" = Some (VPoint q) /\ coords q = p.

Definition all_arcs (curves : list Curve) : Prop :=
  Forall (fun c => exists t p, is_arc c t p) curves.

(** For the arcs [j] and [j + 1] of the list: the outgoing tangent
    length of the first plus the incoming tangent length of the second
    is greater than the distance between their PIs. *)
Definition arc_pair_fails (curves : list Curve) (j : nat) : Prop :=
  exists c0 c1 t0 t1 p0 p1,
    curves !! j = Some c0 /\ curves !! S j = Some c1 /\
    is_arc c0 t0 p0 /\ is_arc c1 t1 p1 /\
    PrimFloat.ltb (FreeCAD.distanceToPoint p0 p1) (t0 + t1) = true.

(** * Properties *)

Lemma bind_Return {A B} (f : A -> Outcome B) (m : Outcome A) (b : B) :
  m ≫= f = Return b -> exists a, m = Return a /\ f a = Return b.
Proof. destruct m as [a|e]; simpl; [eauto | discriminate]. Qed.

(** ** Rebuilding a spiral *)

Lemma curve_build_trackers K (self : CurveTracker) :
  curve (build_trackers K self).2 = curve self.
Proof.
  unfold build_trackers.
  destruct (build_trackers_result K self); reflexivity.
Qed.

Lemma pi_nodes_build_trackers K (self : CurveTracker) :
  pi_nodes (build_trackers K self).2 = pi_nodes self.
Proof.
  unfold build_trackers.
  destruct (build_trackers_result K self); reflexivity.
Qed.

Lemma curve_update K (self : CurveTracker) :
  curve (update K self).2 =
  match rebuilt K self with
  | Return c => c
  | Raise _ => curve self
  end.
Proof.
  unfold update, rebuilt.
  destruct (getitem (curve self) "Type") as [ty|e]; simpl; [|reflexivity].
  destruct (if eq_str ty "Spiral" then _ else _) as [c|e]; [|reflexivity].
  rewrite curve_build_trackers. reflexivity.
Qed.

Lemma pi_nodes_update K (self : CurveTracker) :
  pi_nodes (update K self).2 = pi_nodes self.
Proof.
  unfold update.
  destruct (getitem (curve self) "Type") as [ty|e]; simpl; [|reflexivity].
  destruct (if eq_str ty "Spiral" then _ else _) as [c|e]; [|reflexivity].
  rewrite pi_nodes_build_trackers. reflexivity.
Qed.

(** C1. When the spiral solve that a rebuild of a spiral issues returns a
    curve whose short or long tangent is not positive, [_generate_spiral]
    hands back the curve the tracker holds, and the tracker holds the
    same curve after [update]: the solved curve is not installed. *)
Theorem spiral_fallback_keeps_curve K (self : CurveTracker)
    (a : string * Curve) (r : Curve) (ts tl : float) :
  curve self !! "Type" = Some (VStr "Spiral") ->
  _generate_spiral_args self = Return a ->
  spiral_solve_unk_length K a.2 = Return r ->
  r !! "TanShort" = Some (VNum ts) ->
  r !! "TanLong" = Some (VNum tl) ->
  PrimFloat.leb ts 0 = true \/ PrimFloat.leb tl 0 = true ->
  _generate_spiral K self = Return (curve self) /\
  curve (update K self).2 = curve self.
Proof.
  intros Hty Hargs Hsolve Hts Htl Hbad.
  assert (Hgen : _generate_spiral K self = Return (curve self)).
  { unfold _generate_spiral. rewrite Hargs. simpl. rewrite Hsolve. simpl.
    unfold getitem. rewrite Hts. simpl.
    destruct (PrimFloat.leb ts 0) eqn:Es; [reflexivity|].
    rewrite Htl. simpl.
    destruct Hbad as [Hb|Hb]; [discriminate|]. rewrite Hb. reflexivity. }
  split; [exact Hgen|].
  rewrite curve_update. unfold rebuilt, getitem. rewrite Hty. simpl.
  rewrite Hgen. reflexivity.
Qed.

Lemma spiral_fallback_keeps_curve_witness :
  let self := Sample.tracker (Sample.spiral_curve 2000) false false in
  _generate_spiral Sample.kernel self = Return (curve self) /\
  curve (update Sample.kernel self).2 = curve self.
Proof.
  intro self.
  pose (a := from_outcome ("", ∅) (_generate_spiral_args self)).
  pose (r := from_outcome ∅ (spiral_solve_unk_length Sample.kernel a.2)).
  apply (spiral_fallback_keeps_curve Sample.kernel self a r
           ((-150)%float) ((-100)%float)).
  - reflexivity.
  - vm_compute; reflexivity.
  - vm_compute; reflexivity.
  - vm_compute; reflexivity.
  - vm_compute; reflexivity.
  - left; reflexivity.
Defined.

(** ** Which radius is the known one *)

Lemma falsy_start_radius_unknown (c : Curve) (v : Value) :
  c !! "StartRadius" = Some v -> truthy v = false ->
  start_radius_unknown c = true.
Proof.
  intros Hv Hf. unfold start_radius_unknown, dict_get.
  rewrite Hv. simpl. rewrite Hf. reflexivity.
Qed.

Lemma absent_start_radius_unknown (c : Curve) :
  start_radius_unknown (delete "StartRadius" c) = true.
Proof.
  unfold start_radius_unknown, dict_get.
  rewrite lookup_delete_eq. reflexivity.
Qed.

Lemma getitem_delete_ne (c : Curve) (k k' : string) :
  k <> k' -> getitem (delete k c) k' = getitem c k'.
Proof. intros Hne. unfold getitem. rewrite lookup_delete_ne; done. Qed.



(** ** Which end of the request is moved *)

(** What lines 284-295 compute: with [EndRadius] known, the start handed
    to the solver is the computed point when the start node IS an end
    node, and the start node itself otherwise. *)
Lemma spiral_args_end_radius (self : CurveTracker) (s p e : Point)
    (v_end r : Value) (b : bool) :
  pi_node self 0 = Return s ->
  pi_node self 1 = Return p ->
  pi_node self 2 = Return e ->
  start_radius_unknown (curve self) = true ->
  curve self !! "End" = Some v_end ->
  curve self !! "EndRadius" = Some r ->
  is_end_node s = Some b ->
  _generate_spiral_args self =
  Return ("EndRadius",
          <["EndRadius" := r]> (<["End" := v_end]>
            (<["Start" :=
                 VPoint (if b
                         then plain (toward_start (coords p) (coords s))
                         else s)]>
               (<["PI" := VPoint p]> ∅)))).
Proof.
  intros H0 H1 H2 Hu He Hr Hb.
  unfold _generate_spiral_args, getitem.
  rewrite H0, H1, H2. simpl. rewrite Hu, He. simpl.
  rewrite Hb, Hr. simpl. destruct b; reflexivity.
Qed.

(** What lines 299-309 compute: with [StartRadius] known, the flag that
    is read is the one of the curve's stored ['Start'], and the end is
    moved when that flag is set. *)
Lemma spiral_args_start_radius (self : CurveTracker) (s p e q : Point)
    (r : Value) (b : bool) :
  pi_node self 0 = Return s ->
  pi_node self 1 = Return p ->
  pi_node self 2 = Return e ->
  start_radius_unknown (curve self) = false ->
  curve self !! "Start" = Some (VPoint q) ->
  curve self !! "StartRadius" = Some r ->
  is_end_node q = Some b ->
  _generate_spiral_args self =
  Return ("StartRadius",
          <["StartRadius" := r]>
            (<["End" :=
                 VPoint (if b
                         then plain (toward_end (coords p) (coords e))
                         else e)]>
               (<["Start" := VPoint q]> (<["PI" := VPoint p]> ∅)))).
Proof.
  intros H0 H1 H2 Hu Hs Hr Hb.
  unfold _generate_spiral_args, getitem.
  rewrite H0, H1, H2. simpl. rewrite Hu, Hs. simpl.
  rewrite Hb, Hr. simpl. destruct b; reflexivity.
Qed.

(** C2. On the chain (0,0), (100,0), (100,100) with [EndRadius] known:
    a start node that is not an end node reaches the solver unchanged,
    and a start node that is an end node is replaced by
    [pi - (pi - start) * (distance / 2)], the reverse of the claimed
    rule.  With [StartRadius] known the flag read is the one of the
    stored ['Start']: a stored start without the attribute raises, and
    the end node (not an end node here) is not replaced when the stored
    start's flag is false. *)
Example spiral_request_moves_the_wrong_end :
  let start_of (t : CurveTracker) :=
    a ← _generate_spiral_args t; getitem a.2 "Start" in
  let end_of (t : CurveTracker) :=
    a ← _generate_spiral_args t; getitem a.2 "End" in
  let known_start (stored : Point) :=
    <["Start" := VPoint stored]>
      (<["StartRadius" := VNum 50]> (Sample.spiral_curve 50)) in
  start_of (Sample.tracker (Sample.spiral_curve 50) false false)
    = Return (VPoint (Sample.pt 0 0 false)) /\
  start_of (Sample.tracker (Sample.spiral_curve 50) true false)
    = Return (VPoint (plain (FreeCAD.mkVector (-4900) 0 0))) /\
  end_of (Sample.tracker
            (known_start (plain (FreeCAD.mkVector 0 0 0))) false false)
    = Raise (AttributeError "is_end_node") /\
  end_of (Sample.tracker (known_start (Sample.pt 0 0 false)) false false)
    = Return (VPoint (Sample.pt 100 100 false)).
Proof. repeat split; vm_compute; reflexivity. Qed.

(** ** Rebuilding twice *)

Lemma getitem_Return (c : Curve) (k : string) (v : Value) :
  getitem c k = Return v <-> c !! k = Some v.
Proof.
  unfold getitem. destruct (c !! k); split; intros H;
    try discriminate; congruence.
Qed.

Lemma rebuilt_ext K (s s' : CurveTracker) :
  curve s = curve s' -> pi_nodes s = pi_nodes s' ->
  rebuilt K s = rebuilt K s'.
Proof.
  intros Hc Hp.
  unfold rebuilt, _generate_spiral, _generate_arc, _generate_spiral_args,
    pi_node.
  rewrite Hc, Hp. reflexivity.
Qed.

Lemma spiral_args_stable K (self : CurveTracker) (a : string * Curve)
    (r : Curve) :
  kernel_stable K ->
  _generate_spiral_args self = Return a ->
  spiral_solve_unk_length K a.2 = Return r ->
  _generate_spiral_args (set_curve r self) = Return a.
Proof.
  intros [_ Hst] Ha Hr.
  destruct (Hst _ _ Hr) as (_ & Hu & Hkeep). clear Hst.
  unfold _generate_spiral_args in *. unfold pi_node in *. simpl.
  destruct (py_index (pi_nodes self) 0) as [s|]; simpl in *; [|discriminate].
  destruct (py_index (pi_nodes self) 1) as [p|]; simpl in *; [|discriminate].
  destruct (py_index (pi_nodes self) 2) as [e|]; simpl in *; [|discriminate].
  destruct (start_radius_unknown (curve self)) eqn:Hself.
  - destruct (getitem (curve self) "End") as [e0|] eqn:He0;
      simpl in *; [|discriminate].
    destruct (is_end_node s) as [b|]; simpl in *; [|discriminate].
    destruct (getitem (curve self) "EndRadius") as [r0|] eqn:Hr0;
      simpl in *; [|discriminate].
    injection Ha as <-. simpl in *.
    assert (Ha2 : start_radius_unknown
                    (<["EndRadius" := r0]> (<["End" := e0]>
                       (<["Start" := VPoint (if b then plain
                           (toward_start (coords p) (coords s)) else s)]>
                          (<["PI" := VPoint p]> ∅)))) = true)
      by (destruct b; reflexivity).
    rewrite Ha2 in Hu, Hkeep. rewrite Hu. destruct Hkeep as [Hk1 Hk2].
    unfold getitem. rewrite Hk1, Hk2.
    rewrite lookup_insert_eq.
    rewrite lookup_insert_ne by discriminate. rewrite lookup_insert_eq.
    reflexivity.
  - destruct (getitem (curve self) "Start") as [s0|] eqn:Hs0;
      simpl in *; [|discriminate].
    destruct (get_is_end_node s0) as [b|] eqn:Hb; simpl in *; [|discriminate].
    destruct (getitem (curve self) "StartRadius") as [r0|] eqn:Hr0;
      simpl in *; [|discriminate].
    injection Ha as <-. simpl in *.
    apply getitem_Return in Hr0.
    assert (Ha2 : start_radius_unknown
                    (<["StartRadius" := r0]>
                       (<["End" := VPoint (if b then plain
                           (toward_end (coords p) (coords e)) else e)]>
                          (<["Start" := s0]> (<["PI" := VPoint p]> ∅))))
                  = false).
    { unfold start_radius_unknown, dict_get in *.
      rewrite lookup_insert_eq. rewrite Hr0 in Hself. exact Hself. }
    rewrite Ha2 in Hu, Hkeep. rewrite Hu. destruct Hkeep as [Hk1 Hk2].
    rewrite lookup_insert_eq in Hk2.
    do 2 (rewrite lookup_insert_ne in Hk1 by discriminate).
    rewrite lookup_insert_eq in Hk1.
    unfold getitem. rewrite Hk1. simpl. rewrite Hb. simpl. rewrite Hk2.
    simpl. reflexivity.
Qed.

Lemma eq_str_Spiral (ty : Value) :
  eq_str ty "Spiral" = true <-> ty = VStr "Spiral".
Proof.
  destruct ty as [|f|s|p]; simpl; try (split; [discriminate|discriminate]).
  rewrite String.eqb_eq. split; congruence.
Qed.

(** A curve that [update] has installed is what [update] computes again
    from it, when the kernel is stable. *)
Lemma rebuilt_fixed K (self : CurveTracker) (c c' : Curve) :
  kernel_stable K ->
  rebuilt K self = Return c ->
  rebuilt K (set_curve c self) = Return c' ->
  c' = c.
Proof.
  intros Hst Hc Hc'. unfold rebuilt in Hc.
  apply bind_Return in Hc as (ty & Hty & Hc).
  destruct (eq_str ty "Spiral") eqn:Esp.
  - (* spiral *)
    unfold _generate_spiral in Hc.
    apply bind_Return in Hc as (a & Ha & Hc).
    apply bind_Return in Hc as (r & Hr & Hc).
    apply bind_Return in Hc as (ts & Hts & Hc).
    apply bind_Return in Hc as (sb & Hsb & Hc).
    assert (Hfall : c = curve self -> c' = c).
    { intros ->.
      assert (H : rebuilt K (set_curve (curve self) self)
                  = Return (curve self)).
      { rewrite (rebuilt_ext K _ self) by reflexivity.
        unfold rebuilt. rewrite Hty. simpl. rewrite Esp.
        unfold _generate_spiral. rewrite Ha. simpl. rewrite Hr. simpl.
        rewrite Hts. simpl. rewrite Hsb. simpl. exact Hc. }
      congruence. }
    assert (Hnew : c = r -> c' = r \/ c' = curve (set_curve r self) ->
                   c' = c).
    { intros -> [->| ->]; reflexivity. }
    assert (Hagain : c = r ->
              c' = r \/ c' = curve (set_curve r self)).
    { intros ->. destruct Hst as [Harc Hsp].
      destruct (Hsp _ _ Hr) as (Htyr & _).
      pose proof (spiral_args_stable K self a r (conj Harc Hsp) Ha Hr)
        as Ha'.
      unfold rebuilt, getitem in Hc'. simpl in Hc'.
      rewrite Htyr in Hc'. simpl in Hc'.
      unfold _generate_spiral in Hc'. rewrite Ha' in Hc'. simpl in Hc'.
      rewrite Hr in Hc'. simpl in Hc'.
      rewrite Hts in Hc'. simpl in Hc'. rewrite Hsb in Hc'. simpl in Hc'.
      destruct sb; [injection Hc' as <-; right; reflexivity|].
      destruct (getitem r "TanLong") as [tl|]; simpl in Hc'; [|discriminate].
      destruct (py_le tl 0) as [lb|]; simpl in Hc'; [|discriminate].
      destruct lb; injection Hc' as <-; [right|left]; reflexivity. }
    destruct sb; simpl in Hc.
    + injection Hc as <-. apply Hfall. reflexivity.
    + apply bind_Return in Hc as (tl & Htl & Hc).
      apply bind_Return in Hc as (lb & Hlb & Hc).
      destruct lb; injection Hc as <-.
      * apply Hfall. reflexivity.
      * apply Hnew; [reflexivity|]. apply Hagain. reflexivity.
  - (* arc *)
    destruct Hst as [Harc _].
    unfold _generate_arc in Hc.
    apply bind_Return in Hc as (s & Hs & Hc).
    apply bind_Return in Hc as (p & Hp & Hc).
    apply bind_Return in Hc as (e & He & Hc).
    apply bind_Return in Hc as (rv & Hrv & Hc).
    destruct (Harc _ _ Hc) as [Hrad Hnot].
    rewrite lookup_insert_eq in Hrad.
    unfold rebuilt in Hc'. simpl in Hc'.
    apply bind_Return in Hc' as (ty' & Hty' & Hc').
    assert (Esp' : eq_str ty' "Spiral" = false).
    { destruct (eq_str ty' "Spiral") eqn:E; [|reflexivity].
      apply eq_str_Spiral in E. subst ty'.
      apply getitem_Return in Hty'. contradiction. }
    rewrite Esp' in Hc'. unfold _generate_arc, pi_node in Hc'.
    simpl in Hc'. unfold pi_node in Hs, Hp, He.
    rewrite Hs, Hp, He in Hc'. simpl in Hc'.
    unfold getitem in Hc'. rewrite Hrad in Hc'. simpl in Hc'.
    congruence.
Qed.


Lemma sample_kernel_stable : kernel_stable Sample.kernel.
Proof.
  split; intros a c H; simpl in H.
  - unfold Sample.get_parameters in H.
    apply bind_Return in H as (r & _ & H).
    apply bind_Return in H as (x & _ & H).
    injection H as <-. split.
    + do 2 (rewrite lookup_insert_ne by discriminate). reflexivity.
    + rewrite lookup_insert_eq. discriminate.
  - unfold Sample.solve_unk_length in H.
    repeat (apply bind_Return in H as (? & _ & H)).
    injection H as <-.
    split; [rewrite lookup_insert_eq; reflexivity|].
    split.
    + unfold start_radius_unknown, dict_get.
      do 3 (rewrite lookup_insert_ne by discriminate). reflexivity.
    + destruct (start_radius_unknown a); split;
        do 3 (rewrite lookup_insert_ne by discriminate); reflexivity.
Qed.



(** ** Input callbacks *)

Lemma same_model_refl s : same_model s s.
Proof. repeat split. Qed.

Lemma same_model_trans s1 s2 s3 :
  same_model s1 s2 -> same_model s2 s3 -> same_model s1 s3.
Proof. unfold same_model. intuition congruence. Qed.

Lemma mouse_event_same_model upd arg s :
  same_model s (mouse_event upd arg s).
Proof.
  unfold mouse_event, _update_status_bar, start_drag, on_drag. simpl.
  destruct (button1_dragging _); [|repeat split].
  destruct (user_dragging s); repeat split.
Qed.

Lemma button_event_same_model upd arg s :
  same_model s (button_event upd arg s).
Proof.
  unfold button_event, end_drag. simpl.
  destruct (forallb _ _); [|destruct (existsb _ _)]; simpl;
    destruct (user_dragging s && _); repeat split.
Qed.

Lemma run_same_model upd inputs s : same_model s (run upd inputs s).
Proof.
  revert s. induction inputs as [|i inputs IH]; intros s.
  - apply same_model_refl.
  - unfold run. simpl.
    eapply same_model_trans; [|apply IH].
    destruct i; [apply mouse_event_same_model|apply button_event_same_model].
Qed.

Lemma selected_spec (n : NodeTracker) :
  selected n = true <-> nt_state n = "SELECTED".
Proof. unfold selected. apply String.eqb_eq. Qed.

Lemma all_selected_spec (l : list NodeTracker) :
  forallb id (selected <$> l) = true <->
  Forall (fun n => nt_state n = "SELECTED") l.
Proof.
  induction l as [|n l IH]; simpl.
  - split; [constructor|reflexivity].
  - unfold id at 1. rewrite andb_true_iff, IH, selected_spec, Forall_cons.
    reflexivity.
Qed.

Lemma any_selected_spec (l : list NodeTracker) :
  existsb id (selected <$> l) = true <->
  Exists (fun n => nt_state n = "SELECTED") l.
Proof.
  induction l as [|n l IH]; simpl.
  - split; [discriminate|]. intros H. inversion H.
  - unfold id at 1. rewrite orb_true_iff, IH, selected_spec, Exists_cons.
    reflexivity.
Qed.

Lemma state_button_event upd arg s :
  state (button_event upd arg s) =
  if forallb id (selected <$> Nodes (trackers s)) then "SELECTED"
  else if existsb id (selected <$> Nodes (trackers s)) then "PARTIAL"
  else "UNSELECTED".
Proof.
  unfold button_event, end_drag. simpl.
  destruct (forallb _ _); [|destruct (existsb _ _)]; simpl;
    destruct (user_dragging s && _); reflexivity.
Qed.

(** C5. After a pointer-button event on a curve tracker with node
    trackers (it always has its three), the curve's state is SELECTED
    when every node tracker is SELECTED, PARTIAL when some but not all
    are, and UNSELECTED when none is; the node trackers are the ones
    from before the event. *)
Theorem button_event_aggregates upd (arg : Event) (self : CurveTracker) :
  Nodes (trackers self) <> [] ->
  let self' := button_event upd arg self in
  let is_selected := fun n => nt_state n = "SELECTED" in
  Nodes (trackers self') = Nodes (trackers self) /\
  (Forall is_selected (Nodes (trackers self')) ->
   state self' = "SELECTED") /\
  (Exists is_selected (Nodes (trackers self')) ->
   ~ Forall is_selected (Nodes (trackers self')) ->
   state self' = "PARTIAL") /\
  (Forall (fun n => ~ is_selected n) (Nodes (trackers self')) ->
   state self' = "UNSELECTED").
Proof.
  intros Hne self' is_selected.
  destruct (button_event_same_model upd arg self) as (_ & _ & Htr & _).
  fold self' in Htr. rewrite Htr.
  split; [reflexivity|].
  unfold self'. rewrite state_button_event.
  pose proof (all_selected_spec (Nodes (trackers self))) as Hall.
  pose proof (any_selected_spec (Nodes (trackers self))) as Hany.
  destruct (forallb id _) eqn:Ea; destruct (existsb id _) eqn:Ee.
  - split; [reflexivity|]. split.
    + intros _ Hn. exfalso. apply Hn, Hall. reflexivity.
    + intros Hnone. exfalso.
      destruct (Nodes (trackers self)) as [|n l]; [congruence|].
      apply Forall_cons in Hnone as [Hn _].
      apply Hn. apply proj1 in Hall. specialize (Hall eq_refl).
      apply Forall_cons in Hall as [Hs _]. exact Hs.
  - split; [reflexivity|]. split.
    + intros Hex. apply Hany in Hex. discriminate.
    + intros Hnone. exfalso.
      destruct (Nodes (trackers self)) as [|n l]; [congruence|].
      apply Forall_cons in Hnone as [Hn _].
      apply Hn. apply proj1 in Hall. specialize (Hall eq_refl).
      apply Forall_cons in Hall as [Hs _]. exact Hs.
  - split; [intros H; apply Hall in H; discriminate|].
    split; [reflexivity|].
    intros Hnone. exfalso.
    apply proj1 in Hany. specialize (Hany eq_refl).
    apply Exists_exists in Hany as (n & Hin & Hn).
    rewrite Forall_forall in Hnone. exact (Hnone n Hin Hn).
  - split; [intros H; apply Hall in H; discriminate|].
    split; [|reflexivity].
    intros Hex. apply Hany in Hex. discriminate.
Qed.

Lemma button_event_aggregates_witness :
  let self := Sample.held ["SELECTED"; "UNSELECTED"; "SELECTED"] true in
  let self' :=
    button_event Sample.mouse_update (Sample.release_at (3, 4)%Z) self in
  let is_selected := fun n => nt_state n = "SELECTED" in
  Nodes (trackers self) <> [] /\
  state self' = "PARTIAL" /\
  (Forall is_selected (Nodes (trackers self')) ->
   state self' = "SELECTED").
Proof.
  intros self self' is_selected.
  assert (Hne : Nodes (trackers self) <> []) by discriminate.
  destruct (button_event_aggregates Sample.mouse_update
              (Sample.release_at (3, 4)%Z) self Hne)
    as (_ & Hall & Hpart & _).
  split; [exact Hne|]. split; [|exact Hall].
  apply Hpart.
  - apply Exists_cons_hd. reflexivity.
  - intros H. apply Forall_cons in H as [_ H].
    apply Forall_cons in H as [H _]. discriminate.
Defined.

Lemma mapO_length {A B} (f : A -> Outcome B) (l : list A) (l' : list B) :
  mapO f l = Return l' -> length l' = length l.
Proof.
  revert l'. induction l as [|a l IH]; intros l' H; simpl in H.
  - injection H as <-. reflexivity.
  - apply bind_Return in H as (b & _ & H).
    apply bind_Return in H as (bs & Hbs & H).
    injection H as <-. simpl. f_equal. apply IH. exact Hbs.
Qed.

(** [build_trackers] makes exactly three node trackers. *)
Lemma build_trackers_three_nodes K (self : CurveTracker) (t : Trackers) :
  build_trackers_result K self = Return t -> length (Nodes t) = 3.
Proof.
  unfold build_trackers_result. intros H.
  apply bind_Return in H as (cs & Hcs & H).
  apply bind_Return in H as (nodes & Hnodes & H).
  apply bind_Return in H as (wires & _ & H).
  apply bind_Return in H as (ty & _ & H).
  apply bind_Return in H as (pts & _ & H).
  injection H as <-. simpl.
  apply mapO_length in Hcs. apply mapO_length in Hnodes.
  rewrite Hnodes, length_imap. unfold but_last.
  rewrite length_take, Hcs. reflexivity.
Qed.

(** The aggregation examples of the specification. *)
Example aggregate_examples :
  let after states :=
    state (button_event Sample.mouse_update (Sample.release_at (0, 0)%Z)
             (Sample.held states true)) in
  after ["SELECTED"; "SELECTED"; "SELECTED"] = "SELECTED" /\
  after ["SELECTED"; "UNSELECTED"; "SELECTED"] = "PARTIAL" /\
  after ["UNSELECTED"; "UNSELECTED"; "UNSELECTED"] = "UNSELECTED".
Proof. repeat split. Qed.

(** ** Starting and ending a drag *)

Lemma user_dragging_mouse_event upd arg s :
  user_dragging (mouse_event upd arg s) =
  user_dragging s || button1_dragging (upd (mouse s) arg).
Proof.
  unfold mouse_event, _update_status_bar, start_drag, on_drag. simpl.
  destruct (button1_dragging _); destruct (user_dragging s) eqn:E; simpl;
    rewrite ?E; reflexivity.
Qed.

(** C6, as the code has it. From idle, a pointer-motion event sets
    [user_dragging] exactly when button 1 is dragging after the mouse
    state took the event in; the selection states of the node trackers
    play no part. *)
Theorem drag_starts_on_dragging_button upd (arg : Event)
    (self : CurveTracker) (nodes : list NodeTracker) :
  user_dragging self = false ->
  let with_nodes :=
    set_trackers
      (mkTrackers nodes (Wires (trackers self)) (CurveWires (trackers self)))
      self in
  (user_dragging (mouse_event upd arg self) = true <->
   button1_dragging (upd (mouse self) arg) = true) /\
  user_dragging (mouse_event upd arg with_nodes) =
  user_dragging (mouse_event upd arg self).
Proof.
  intros Hidle with_nodes. rewrite !user_dragging_mouse_event.
  simpl. rewrite Hidle. simpl. split; reflexivity.
Qed.

Lemma drag_starts_on_dragging_button_witness :
  let self := Sample.held ["UNSELECTED"; "UNSELECTED"; "UNSELECTED"] true in
  let arg := Sample.move_to (5, 5)%Z in
  user_dragging self = false /\
  (user_dragging (mouse_event Sample.mouse_update arg self) = true <->
   button1_dragging (Sample.mouse_update (mouse self) arg) = true).
Proof.
  intros self arg.
  assert (Hidle : user_dragging self = false) by reflexivity.
  split; [exact Hidle|].
  exact (proj1 (drag_starts_on_dragging_button Sample.mouse_update arg self
                  [] Hidle)).
Defined.

(** C6 as claimed fails: button 1 held over a curve whose three node
    trackers are all UNSELECTED, then a pointer motion: the tracker
    starts dragging. *)
Lemma drag_starts_with_nothing_selected :
  let self := Sample.held ["UNSELECTED"; "UNSELECTED"; "UNSELECTED"] true in
  let self' := mouse_event Sample.mouse_update (Sample.move_to (5, 5)%Z) self in
  user_dragging self = false /\
  existsb selected (Nodes (trackers self)) = false /\
  user_dragging self' = true.
Proof. repeat split. Qed.

(** ** Swapping an edge that cannot be swapped *)

Lemma py_index_last {A} (l : list A) (a : A) :
  py_index (l ++ [a]) (-1) = Return a.
Proof.
  unfold py_index. rewrite length_app. simpl.
  replace (-1 + Z.of_nat (length l + 1))%Z with (Z.of_nat (length l))
    by lia.
  destruct (Z.ltb_spec (Z.of_nat (length l)) 0) as [Hlt|_]; [lia|].
  rewrite Nat2Z.id.
  rewrite lookup_app_r by lia. rewrite Nat.sub_diag. reflexivity.
Qed.

Lemma insert_last_same {A} (l : list A) (a : A) :
  <[(length (l ++ [a]) - 1)%nat := a]> (l ++ [a]) = l ++ [a].
Proof.
  rewrite length_app. simpl.
  replace (length l + 1 - 1)%nat with (length l + 0)%nat by lia.
  rewrite insert_app_r. reflexivity.
Qed.

(** C8. The second face is picked and [swapEdge] on the copy of the
    mesh of the last selected surface raises: the message is printed,
    the mesh assigned back to the surface has the content of the
    original (every selected surface keeps its mesh) and the picked
    faces are forgotten. *)
Theorem swap_edge_failure_is_noop {Mesh : Type}
    (swapEdge : Mesh -> Z -> Z -> option Mesh)
    (self : EditSurface.Command) (i0 index : Z)
    (others : list Mesh) (mesh : Mesh) :
  EditSurface.FaceIndexes self = [i0] ->
  EditSurface.selection self = others ++ [mesh] ->
  swapEdge mesh i0 index = None ->
  EditSurface.SwapEdge swapEdge
    (EditSurface.mkCallback EditSurface.BUTTON1 true
       (Some (EditSurface.FaceDetail index)))
    self =
  (Return (),
   EditSurface.mkCommand [] (EditSurface.selection self)
     (EditSurface.printed self ++ [EditSurface.unswappable_message])
     (EditSurface.callback_registered self)).
Proof.
  intros Hidx Hsel Hfail.
  unfold EditSurface.SwapEdge. simpl. rewrite Hidx, Hsel. simpl.
  rewrite py_index_last, Hfail. simpl.
  rewrite insert_last_same. reflexivity.
Qed.

Lemma swap_edge_failure_is_noop_witness :
  let mesh : EditSurface.TriMesh := [(0, 1, 2); (1, 3, 2); (5, 6, 7)]%Z in
  let self := EditSurface.mkCommand [0%Z] [mesh] [] true in
  EditSurface.SwapEdge EditSurface.tri_swapEdge
    (EditSurface.mkCallback EditSurface.BUTTON1 true
       (Some (EditSurface.FaceDetail 2)))
    self =
  (Return (),
   EditSurface.mkCommand [] [mesh] [EditSurface.unswappable_message] true).
Proof.
  intros mesh self.
  apply (swap_edge_failure_is_noop EditSurface.tri_swapEdge self 0 2 []
           mesh); reflexivity.
Defined.

(** The same click on two triangles that share an edge does swap it. *)
Example swap_edge_success :
  let mesh : EditSurface.TriMesh := [(0, 1, 2); (1, 3, 2); (5, 6, 7)]%Z in
  (EditSurface.SwapEdge EditSurface.tri_swapEdge
     (EditSurface.mkCallback EditSurface.BUTTON1 true
        (Some (EditSurface.FaceDetail 1)))
     (EditSurface.mkCommand [0%Z] [mesh] [] true)).2 =
  EditSurface.mkCommand [] [[(0, 3, 1); (3, 0, 2); (5, 6, 7)]%Z] [] true.
Proof. vm_compute. reflexivity. Qed.

(** ** Setting no coordinates *)

(** C10. [set_coordinates] with [None], with an empty list or with an
    empty tuple returns at once and leaves the geometry as it was,
    whatever it was: the points of the coordinate node are unchanged
    and nothing is dispatched, with or without [do_notify]. *)
Theorem set_coordinates_empty_is_noop (self : Geometry.Geometry)
    (do_notify : bool) :
  let unchanged c :=
    Geometry.set_coordinates c do_notify self = (Return (), self) /\
    Geometry.coordinate_node (Geometry.set_coordinates c do_notify self).2 =
      Geometry.coordinate_node self /\
    Geometry.dispatched (Geometry.set_coordinates c do_notify self).2 =
      Geometry.dispatched self in
  unchanged Geometry.CNone /\
  unchanged (Geometry.CList []) /\
  unchanged (Geometry.CTuple []).
Proof. repeat split. Qed.

(** With coordinates the node is written and, when asked and publishing,
    the update is dispatched. *)
Example set_coordinates_nonempty :
  let g :=
    Geometry.mkGeometry "node" true (Some [[1; 2; 3]; [4; 5; 6]]%float) [] in
  Geometry.set_coordinates (Geometry.CTuple [7; 8; 9]%float) true g =
  (Return (),
   Geometry.mkGeometry "node" true (Some [[7; 8; 9]; [4; 5; 6]]%float)
     [Geometry.mkDispatch "NODE.UPDATED" "node" [[7; 8; 9]%float]]).
Proof. reflexivity. Qed.

(** ** The chain validator *)

Lemma pair_over_nil K j : ~ pair_over K [] j.
Proof. intros (c0 & c1 & H & _). discriminate. Qed.

Lemma pair_over_single K c j : ~ pair_over K [c] j.
Proof. intros (c0 & c1 & _ & H & _). discriminate. Qed.

Lemma pair_over_cons K c cs j :
  pair_over K (c :: cs) (S j) <-> pair_over K cs j.
Proof. unfold pair_over. simpl. reflexivity. Qed.

Lemma pair_over_head K c0 c1 cs :
  pair_over K (c0 :: c1 :: cs) 0 <-> pair_exceeds K c0 c1 = Return true.
Proof.
  unfold pair_over. simpl. split.
  - intros (? & ? & [= <-] & [= <-] & H). exact H.
  - intros H. eauto.
Qed.

Lemma mark_pair_lookup (st : list CoinStyle) (i k : nat) :
  <[i := ERROR]> (<[S i := ERROR]> st) !! k = Some ERROR <->
  st !! k = Some ERROR \/ (k < length st /\ (k = i \/ k = S i)).
Proof.
  rewrite !list_lookup_insert_Some, !length_insert.
  pose proof (lookup_lt_Some st k ERROR) as Hlt.
  destruct (decide (k = i)), (decide (k = S i)); subst;
    intuition (try lia; try congruence).
Qed.

(** The pair loop entered at index [i] with the styles [st]: it keeps
    the length, and a style is ERROR afterwards exactly when it was
    before or one of the two curves of a failing pair sits there. *)
Lemma check_pairs_spec K (cs : list Curve) :
  forall (i : nat) (st st' : list CoinStyle),
    check_pairs K cs i st = Return st' ->
    length st' = length st /\
    forall k, st' !! k = Some ERROR <->
      st !! k = Some ERROR \/
      (k < length st /\
       exists j, pair_over K cs j /\ (k = i + j \/ k = S (i + j))).
Proof.
  induction cs as [|c0 rest IH]; intros i st st' H.
  - injection H as <-. split; [reflexivity|]. intros k. split; [tauto|].
    intros [?|(_ & j & Hj & _)]; [assumption|].
    destruct (pair_over_nil _ _ Hj).
  - destruct rest as [|c1 r2].
    + injection H as <-. split; [reflexivity|]. intros k. split; [tauto|].
      intros [?|(_ & j & Hj & _)]; [assumption|].
      destruct (pair_over_single _ _ _ Hj).
    + cbn [check_pairs] in H.
      apply bind_Return in H as (b & Hb & H).
      apply IH in H as [Hlen Hmarks]. clear IH.
      assert (Hlen1 : length (if b then <[i:=ERROR]> (<[S i:=ERROR]> st)
                              else st) = length st)
        by (destruct b; rewrite ?length_insert; reflexivity).
      rewrite Hlen1 in Hlen, Hmarks. split; [exact Hlen|].
      intros k. rewrite Hmarks. clear Hmarks. split.
      * intros [Hk|(Hlt & j & Hj & Hkj)].
        -- destruct b; [|left; exact Hk].
           apply mark_pair_lookup in Hk as [Hk|(Hlt & Hki)];
             [left; exact Hk|].
           right. split; [exact Hlt|]. exists 0.
           split; [apply pair_over_head; exact Hb|lia].
        -- right. split; [exact Hlt|]. exists (S j).
           split; [apply pair_over_cons; exact Hj|lia].
      * intros [Hk|(Hlt & j & Hj & Hkj)].
        -- left. destruct b; [|exact Hk].
           apply mark_pair_lookup. left. exact Hk.
        -- destruct j as [|j].
           ++ apply pair_over_head in Hj. rewrite Hj in Hb.
              injection Hb as <-. left. apply mark_pair_lookup.
              right. split; [exact Hlt|lia].
           ++ apply pair_over_cons in Hj. right.
              split; [exact Hlt|]. exists j. split; [exact Hj|lia].
Qed.

Lemma check_pairs_total K (cs : list Curve) :
  pairs_readable K cs ->
  forall i st, exists st', check_pairs K cs i st = Return st'.
Proof.
  induction cs as [|c0 rest IH]; intros Hread i st.
  - eexists. reflexivity.
  - destruct rest as [|c1 r2]; [eexists; reflexivity|].
    cbn [check_pairs].
    destruct (Hread 0 c0 c1 eq_refl eq_refl) as [b Hb]. rewrite Hb. simpl.
    apply IH. intros j d0 d1 H0 H1. exact (Hread (S j) d0 d1 H0 H1).
Qed.

Lemma pair_over_lt K cs j : pair_over K cs j -> S j < length cs.
Proof.
  intros (c0 & c1 & _ & H1 & _). apply lookup_lt_Some in H1. exact H1.
Qed.

Lemma py_setitem_ERROR (st st' : list CoinStyle) (i : Z) :
  py_setitem st i ERROR = Return st' ->
  length st' = length st /\
  forall k, st !! k = Some ERROR -> st' !! k = Some ERROR.
Proof.
  unfold py_setitem. destruct (_ || _)%bool; [discriminate|].
  intros [= <-]. split; [apply length_insert|].
  intros k Hk. apply list_lookup_insert_Some.
  destruct (decide (Z.to_nat (if (i <? 0)%Z
                              then (i + Z.of_nat (length st))%Z else i) = k))
    as [->|Hne]; [left|right; split; [exact Hne|exact Hk]].
  split; [reflexivity|]. split; [reflexivity|].
  apply lookup_lt_Some in Hk. exact Hk.
Qed.

(** The endpoint checks only add ERROR styles. *)
Lemma endpoint_check_mono K cs dp (st st' : list CoinStyle) (i : Z) :
  endpoint_check K cs dp st i = Return st' ->
  length st' = length st /\
  forall k, st !! k = Some ERROR -> st' !! k = Some ERROR.
Proof.
  unfold endpoint_check. intros H.
  apply bind_Return in H as (c & _ & H).
  apply bind_Return in H as (p & _ & H).
  apply bind_Return in H as (ty & _ & H).
  apply bind_Return in H as (t & _ & H).
  apply bind_Return in H as (s & _ & H).
  destruct (style_is_error s); [injection H as <-; auto|].
  apply bind_Return in H as (pv & _ & H).
  apply bind_Return in H as (v & _ & H).
  apply bind_Return in H as (over & _ & H).
  destruct over; [apply py_setitem_ERROR in H; exact H|].
  injection H as <-. auto.
Qed.

Lemma endpoint_checks_mono K cs dp (xs : list Z) :
  forall st st' : list CoinStyle,
    endpoint_checks K cs dp xs st = Return st' ->
    length st' = length st /\
    forall k, st !! k = Some ERROR -> st' !! k = Some ERROR.
Proof.
  induction xs as [|i xs IH]; intros st st' H; simpl in H.
  - injection H as <-. auto.
  - apply bind_Return in H as (s1 & H1 & H).
    apply endpoint_check_mono in H1 as [Hl1 Hm1].
    apply IH in H as [Hl Hm]. split; [congruence|]. auto.
Qed.

Lemma forallb_not_error (st : list CoinStyle) (k : nat) :
  st !! k = Some ERROR ->
  forallb (fun s => negb (style_is_error s)) st = false.
Proof.
  revert k. induction st as [|s st IH]; intros [|k] H; simpl in *;
    try discriminate.
  - injection H as ->. reflexivity.
  - rewrite (IH k H). apply andb_false_r.
Qed.

(** In the validator of the comments, the two curves of a failing pair
    are both styled ERROR and the chain is not valid, whatever the
    endpoint checks add. *)
Lemma validate_curve_disabled_marks_pair K (dc : list Z)
    (sc : list Curve) (dp : list Point) (curves : list Curve)
    (idx : list Z) (cs : list Curve) (first : Z) (v : Validation) (j : nat) :
  extend dc sc curves = Return (idx, cs) ->
  py_index idx 0 = Return first ->
  validate_curve_disabled K dc sc dp curves = Return v ->
  pair_over K cs j ->
  ((first + Z.of_nat j)%Z, ERROR) ∈ set_style_calls v /\
  ((first + Z.of_nat (S j))%Z, ERROR) ∈ set_style_calls v /\
  validation_is_valid v = false.
Proof.
  intros Hext Hfirst Hv Hover.
  unfold validate_curve_disabled in Hv.
  destruct dc as [|d dc']; [discriminate|].
  rewrite Hext in Hv. simpl in Hv.
  apply bind_Return in Hv as (st & Hst & Hv).
  rewrite Hfirst in Hv. simpl in Hv.
  apply bind_Return in Hv as (lst & _ & Hv).
  apply bind_Return in Hv as (st' & Hst' & Hv).
  injection Hv as <-. simpl.
  apply check_pairs_spec in Hst as [Hlen Hmarks].
  apply endpoint_checks_mono in Hst' as [_ Hmono].
  rewrite length_replicate in Hlen, Hmarks.
  pose proof (pair_over_lt _ _ _ Hover) as Hlt.
  assert (H0 : st' !! j = Some ERROR).
  { apply Hmono, Hmarks. right. split; [lia|]. exists j. split; [exact Hover|lia]. }
  assert (H1 : st' !! S j = Some ERROR).
  { apply Hmono, Hmarks. right. split; [lia|]. exists j. split; [exact Hover|lia]. }
  split; [|split].
  - apply (elem_of_lookup_imap_2
             (fun (i : nat) (s : CoinStyle) => ((first + Z.of_nat i)%Z, s))
             st' ERROR j H0).
  - apply (elem_of_lookup_imap_2
             (fun (i : nat) (s : CoinStyle) => ((first + Z.of_nat i)%Z, s))
             st' ERROR (S j) H1).
  - exact (forallb_not_error st' j H0).
Qed.

(** The pair loop of the comments, run from the first pair with every
    style at its default, on curves whose tangents and PIs can be read:
    a curve is styled ERROR exactly when the pair it forms with the next
    curve or with the previous curve fails the test of the loop. *)
Lemma check_pairs_marks K (cs : list Curve) :
  pairs_readable K cs ->
  exists styles,
    check_pairs K cs 0 (replicate (length cs) DEFAULT) = Return styles /\
    length styles = length cs /\
    forall k, styles !! k = Some ERROR <->
      pair_over K cs k \/ (exists j, k = S j /\ pair_over K cs j).
Proof.
  intros Hread.
  destruct (check_pairs_total K cs Hread 0 (replicate (length cs) DEFAULT))
    as [styles Hst].
  exists styles. split; [exact Hst|].
  apply check_pairs_spec in Hst as [Hlen Hmarks].
  rewrite length_replicate in Hlen, Hmarks. split; [exact Hlen|].
  intros k. rewrite Hmarks. split.
  - intros [Hk|(_ & j & Hj & [->| ->])].
    + apply lookup_replicate in Hk as [Hk _]. discriminate.
    + left. exact Hj.
    + right. exists j. split; [reflexivity|exact Hj].
  - intros [Hk|(j & -> & Hj)]; right.
    + pose proof (pair_over_lt _ _ _ Hk). split; [lia|].
      exists k. split; [exact Hk|lia].
    + pose proof (pair_over_lt _ _ _ Hj). split; [lia|].
      exists j. split; [exact Hj|lia].
Qed.

(** On two arcs the test of the loop is the one on their tangents: the
    outgoing tangent of the first plus the incoming tangent of the
    second against the distance between the PIs. *)
Lemma pair_exceeds_arcs K (c0 c1 : Curve) (t0 t1 : float)
    (p0 p1 : FreeCAD.Vector) :
  is_arc c0 t0 p0 -> is_arc c1 t1 p1 ->
  pair_exceeds K c0 c1 =
  Return (PrimFloat.ltb (FreeCAD.distanceToPoint p0 p1) (t0 + t1)).
Proof.
  intros ((ty0 & Hty0 & Hs0) & Ht0 & q0 & Hq0 & <-)
         ((ty1 & Hty1 & Hs1) & Ht1 & q1 & Hq1 & <-).
  unfold pair_exceeds, tangent_0, tangent_1, pi_distance, getitem.
  rewrite Hty0, Hty1. simpl. rewrite Hs0, Hs1, Ht0, Ht1. simpl.
  rewrite Hq0, Hq1. reflexivity.
Qed.

Lemma all_arcs_lookup (cs : list Curve) (j : nat) (c : Curve) :
  all_arcs cs -> cs !! j = Some c -> exists t p, is_arc c t p.
Proof.
  intros Hall Hj. unfold all_arcs in Hall.
  rewrite Forall_lookup in Hall. exact (Hall j c Hj).
Qed.

Lemma all_arcs_readable K (cs : list Curve) :
  all_arcs cs -> pairs_readable K cs.
Proof.
  intros Hall j c0 c1 H0 H1.
  destruct (all_arcs_lookup cs j c0 Hall H0) as (t0 & p0 & Ha0).
  destruct (all_arcs_lookup cs (S j) c1 Hall H1) as (t1 & p1 & Ha1).
  eexists. apply (pair_exceeds_arcs K c0 c1 t0 t1 p0 p1 Ha0 Ha1).
Qed.

Lemma arc_pair_fails_over K (cs : list Curve) (j : nat) :
  all_arcs cs -> (pair_over K cs j <-> arc_pair_fails cs j).
Proof.
  intros Hall. split.
  - intros (c0 & c1 & H0 & H1 & Hex).
    destruct (all_arcs_lookup cs j c0 Hall H0) as (t0 & p0 & Ha0).
    destruct (all_arcs_lookup cs (S j) c1 Hall H1) as (t1 & p1 & Ha1).
    rewrite (pair_exceeds_arcs K c0 c1 t0 t1 p0 p1 Ha0 Ha1) in Hex.
    injection Hex as Hex.
    exists c0, c1, t0, t1, p0, p1. auto.
  - intros (c0 & c1 & t0 & t1 & p0 & p1 & H0 & H1 & Ha0 & Ha1 & Hex).
    exists c0, c1. split; [exact H0|]. split; [exact H1|].
    rewrite (pair_exceeds_arcs K c0 c1 t0 t1 p0 p1 Ha0 Ha1), Hex.
    reflexivity.
Qed.


Lemma sample_arcs :
  all_arcs [Sample.arc_at 0 60; Sample.arc_at 100 60; Sample.arc_at 300 10].
Proof.
  repeat constructor;
    (eexists; eexists; split; [eexists; split; [reflexivity|reflexivity]|];
     split; [reflexivity|]; eexists; split; reflexivity).
Qed.



(** The validator of the comments on the same two arcs, the whole chain:
    both are styled ERROR and the chain is invalid. *)
Example disabled_validator_marks_both :
  let cs := [Sample.arc_at 0 60; Sample.arc_at 100 60] in
  validate_curve_disabled Sample.kernel [0; 1]%Z cs
    [Sample.pt (-200) 0 true; Sample.pt 300 0 true] cs =
  Return (mkValidation [(0%Z, ERROR); (1%Z, ERROR)] false).
Proof. vm_compute. reflexivity. Qed.

(** * Further properties of the embedded code *)

(** ** [_generate_spiral] and [_generate_arc] *)

(** X1. Whatever the solver answers, [update] on a spiral leaves either
    the curve the tracker held or a curve whose ['TanShort'] and
    ['TanLong'] are numbers for which [<= 0.0] is false: a solution with
    a non-positive tangent is never installed. *)
Theorem update_installs_feasible_spiral K (self : CurveTracker) :
  curve self !! "Type" = Some (VStr "Spiral") ->
  let c := curve (update K self).2 in
  c = curve self \/
  exists ts tl,
    c !! "TanShort" = Some (VNum ts) /\ c !! "TanLong" = Some (VNum tl) /\
    PrimFloat.leb ts 0 = false /\ PrimFloat.leb tl 0 = false.
Proof.
  intros Hty c. unfold c. rewrite curve_update.
  unfold rebuilt, getitem. rewrite Hty. simpl.
  destruct (_generate_spiral K self) as [r|e] eqn:Hgen; [|left; reflexivity].
  unfold _generate_spiral in Hgen.
  apply bind_Return in Hgen as (a & _ & Hgen).
  apply bind_Return in Hgen as (s & _ & Hgen).
  apply bind_Return in Hgen as (ts & Hts & Hgen).
  apply bind_Return in Hgen as (sb & Hsb & Hgen).
  destruct sb; [injection Hgen as <-; left; reflexivity|].
  apply bind_Return in Hgen as (tl & Htl & Hgen).
  apply bind_Return in Hgen as (lb & Hlb & Hgen).
  destruct lb; injection Hgen as <-; [left; reflexivity|].
  right. apply getitem_Return in Hts, Htl.
  destruct ts as [|fs| |]; try discriminate.
  destruct tl as [|fl| |]; try discriminate.
  injection Hsb as Hsb. injection Hlb as Hlb.
  exists fs, fl. auto.
Qed.

Lemma update_installs_feasible_spiral_witness :
  let self := Sample.tracker (Sample.spiral_curve 50) true false in
  let c := curve (update Sample.kernel self).2 in
  c = curve self \/
  exists ts tl,
    c !! "TanShort" = Some (VNum ts) /\ c !! "TanLong" = Some (VNum tl) /\
    PrimFloat.leb ts 0 = false /\ PrimFloat.leb tl 0 = false.
Proof.
  intro self.
  apply (update_installs_feasible_spiral Sample.kernel self). reflexivity.
Defined.

(** X2. The dictionary handed to the spiral solver depends on the curve
    only through ['StartRadius'], ['EndRadius'], ['Start'] and ['End']:
    two curves that agree on these four keys give the same request (or
    the same exception), whatever else they hold. *)
Theorem spiral_request_reads_four_keys (self : CurveTracker) (c' : Curve) :
  c' !! "StartRadius" = curve self !! "StartRadius" ->
  c' !! "EndRadius" = curve self !! "EndRadius" ->
  c' !! "Start" = curve self !! "Start" ->
  c' !! "End" = curve self !! "End" ->
  _generate_spiral_args (set_curve c' self) = _generate_spiral_args self.
Proof.
  intros Hsr Her Hs He.
  unfold _generate_spiral_args, pi_node, start_radius_unknown, dict_get,
    getitem. simpl.
  rewrite Hsr, Her, Hs, He. reflexivity.
Qed.

Lemma spiral_request_reads_four_keys_witness :
  let self := Sample.tracker (Sample.spiral_curve 50) true false in
  _generate_spiral_args
    (set_curve (<["TanShort" := VNum 7]> (delete "Center" (curve self))) self)
  = _generate_spiral_args self.
Proof.
  intro self.
  apply (spiral_request_reads_four_keys self); reflexivity.
Defined.



(** X4. When ['StartRadius'] is known (present, truthy and not
    infinite) it takes precedence: the request carries it under
    ['StartRadius'] and has no ['EndRadius'], even when the curve holds
    an ['EndRadius'] too. *)
Theorem known_start_radius_takes_precedence (self : CurveTracker)
    (v : Value) :
  curve self !! "StartRadius" = Some v ->
  truthy v = true ->
  eq_inf v = false ->
  (fun a : string * Curve =>
     (a.1, a.2 !! "StartRadius", a.2 !! "EndRadius"))
    <$> _generate_spiral_args self =
  (_ ← _generate_spiral_args self; mret ("StartRadius", Some v, None)).
Proof.
  intros Hv Ht Hinf.
  assert (Hu : start_radius_unknown (curve self) = false).
  { unfold start_radius_unknown, dict_get. rewrite Hv. simpl.
    rewrite Ht, Hinf. reflexivity. }
  unfold _generate_spiral_args, pi_node, getitem. rewrite Hu, Hv.
  destruct (py_index (pi_nodes self) 0) as [s|]; simpl; [|reflexivity].
  destruct (py_index (pi_nodes self) 1) as [p|]; simpl; [|reflexivity].
  destruct (py_index (pi_nodes self) 2) as [e|]; simpl; [|reflexivity].
  destruct (curve self !! "Start") as [s0|]; simpl; [|reflexivity].
  destruct (get_is_end_node s0) as [b|]; simpl; [|reflexivity].
  reflexivity.
Qed.

Lemma known_start_radius_takes_precedence_witness :
  let self :=
    Sample.tracker
      (<["Start" := VPoint (Sample.pt 0 0 false)]>
         (<["StartRadius" := VNum 80]> (Sample.spiral_curve 50)))
      false false in
  (fun a : string * Curve =>
     (a.1, a.2 !! "StartRadius", a.2 !! "EndRadius"))
    <$> _generate_spiral_args self =
  Return ("StartRadius", Some (VNum 80), None).
Proof.
  intro self.
  rewrite (known_start_radius_takes_precedence self (VNum 80));
    reflexivity.
Defined.

(** X5. An arc rebuild reads nothing of the curve but ['Radius']: two
    curves with the same radius (or both without) give the same call of
    the kernel and so the same result. *)
Theorem arc_rebuild_reads_radius_only K (self : CurveTracker) (c' : Curve) :
  c' !! "Radius" = curve self !! "Radius" ->
  _generate_arc K (set_curve c' self) = _generate_arc K self.
Proof.
  intros Hr. unfold _generate_arc, pi_node, getitem. simpl.
  rewrite Hr. reflexivity.
Qed.

Lemma arc_rebuild_reads_radius_only_witness :
  _generate_arc Sample.kernel
    (set_curve (<["Tangent" := VNum 1]> (Sample.arc_at 100 60))
       (Sample.tracker (Sample.arc_at 100 60) true true))
  = _generate_arc Sample.kernel
      (Sample.tracker (Sample.arc_at 100 60) true true).
Proof.
  apply (arc_rebuild_reads_radius_only Sample.kernel
           (Sample.tracker (Sample.arc_at 100 60) true true)).
  reflexivity.
Defined.

(** ** [update] and [build_trackers] *)

Lemma pi_node_short (self : CurveTracker) :
  length (pi_nodes self) < 3 ->
  (s ← pi_node self 0; p ← pi_node self 1; e ← pi_node self 2;
   mret (s, p, e)) = Raise IndexError.
Proof.
  unfold pi_node. intros Hlen.
  destruct (pi_nodes self) as [|a [|b [|c l]]]; simpl in *;
    try reflexivity; lia.
Qed.

(** X6. With fewer than three PI nodes [update] raises [IndexError]
    before it touches anything, for a spiral and for an arc: the tracker
    is returned unchanged. *)
Theorem update_needs_three_pi_nodes K (self : CurveTracker) (ty : Value) :
  curve self !! "Type" = Some ty ->
  length (pi_nodes self) < 3 ->
  update K self = (Raise IndexError, self).
Proof.
  intros Hty Hlen. unfold update, getitem. rewrite Hty.
  pose proof (pi_node_short self Hlen) as Hshort.
  assert (Hs : _generate_spiral K self = Raise IndexError).
  { unfold _generate_spiral, _generate_spiral_args.
    destruct (pi_node self 0) as [s|[]]; simpl in *; try discriminate;
      try reflexivity.
    destruct (pi_node self 1) as [p|[]]; simpl in *; try discriminate;
      try reflexivity.
    destruct (pi_node self 2) as [e|[]]; simpl in *; try discriminate;
      reflexivity. }
  assert (Ha : _generate_arc K self = Raise IndexError).
  { unfold _generate_arc.
    destruct (pi_node self 0) as [s|[]]; simpl in *; try discriminate;
      try reflexivity.
    destruct (pi_node self 1) as [p|[]]; simpl in *; try discriminate;
      try reflexivity.
    destruct (pi_node self 2) as [e|[]]; simpl in *; try discriminate;
      reflexivity. }
  rewrite Hs, Ha. destruct (eq_str ty "Spiral"); reflexivity.
Qed.

Lemma update_needs_three_pi_nodes_witness :
  let self :=
    mkCurveTracker (Sample.arc_at 100 60)
      [Sample.pt 0 0 true; Sample.pt 100 0 false]
      ["Alignment"; "Curve0"] Sample.idle_mouse false true "UNSELECTED"
      Sample.no_trackers 0 in
  update Sample.kernel self = (Raise IndexError, self).
Proof.
  intro self.
  apply (update_needs_three_pi_nodes Sample.kernel self (VStr "Arc"));
    [reflexivity|simpl; lia].
Defined.

(** X7. [update] writes [curve] and [trackers] only: the PI nodes, the
    names, the mouse state, the drag flag, the validity flag, the
    selection state and the redraw count are those from before, whether
    it returns or raises. *)
Theorem update_frame K (self : CurveTracker) :
  let self' := (update K self).2 in
  pi_nodes self' = pi_nodes self /\ names self' = names self /\
  mouse self' = mouse self /\ user_dragging self' = user_dragging self /\
  is_valid self' = is_valid self /\ state self' = state self /\
  redraws self' = redraws self.
Proof.
  unfold update, build_trackers.
  destruct (getitem (curve self) "Type") as [ty|e]; simpl; [|repeat split].
  destruct (if eq_str ty "Spiral" then _ else _) as [c|e]; simpl;
    [|repeat split].
  destruct (build_trackers_result K (set_curve c self)); repeat split.
Qed.

Lemma getitem_None (c : Curve) (k : string) :
  c !! k = None -> getitem c k = Raise (KeyError k).
Proof. intros H. unfold getitem. rewrite H. reflexivity. Qed.

(** The keys [build_trackers] reads, in the order it reads them. *)
Lemma coords_missing (c : Curve) (k : string) :
  k ∈ ["Center"; "Start"; "End"; "PI"] ->
  c !! k = None ->
  exists k', k' ∈ ["Center"; "Start"; "End"; "PI"] /\ c !! k' = None /\
    mapO (getitem c) (but_last _node_names) = Raise (KeyError k').
Proof.
  intros Hin Hk. cbn [but_last _node_names length take Nat.sub mapO].
  unfold getitem.
  destruct (c !! "Center") eqn:H0;
    [|exists "Center"; repeat split; [repeat constructor|assumption]].
  destruct (c !! "Start") eqn:H1;
    [|exists "Start"; repeat split; [repeat constructor|assumption]].
  destruct (c !! "End") eqn:H2;
    [|exists "End"; repeat split; [repeat constructor|assumption]].
  destruct (c !! "PI") eqn:H3;
    [|exists "PI"; repeat split; [repeat constructor|assumption]].
  exfalso.
  repeat (apply elem_of_cons in Hin as [->|Hin]; [congruence|]).
  inversion Hin.
Qed.

(** X8. [update] is not atomic. When the rebuilt curve lacks one of the
    keys ['Center'], ['Start'], ['End'], ['PI'] that [build_trackers]
    reads, [update] raises [KeyError] after it has replaced the curve:
    the tracker then holds the new curve with the trackers of the old
    one. *)
Theorem update_new_curve_stale_trackers K (self : CurveTracker)
    (c : Curve) (k : string) :
  rebuilt K self = Return c ->
  k ∈ ["Center"; "Start"; "End"; "PI"] ->
  c !! k = None ->
  exists k',
    c !! k' = None /\
    update K self = (Raise (KeyError k'), set_curve c self) /\
    curve (update K self).2 = c /\
    trackers (update K self).2 = trackers self.
Proof.
  intros Hc Hin Hk.
  destruct (coords_missing c k Hin Hk) as (k' & _ & Hk' & Hmap).
  exists k'. split; [exact Hk'|].
  assert (Hup : update K self = (Raise (KeyError k'), set_curve c self)).
  { unfold rebuilt in Hc. unfold update.
    destruct (getitem (curve self) "Type") as [ty|e]; simpl in Hc;
      [|discriminate].
    rewrite Hc. unfold build_trackers, build_trackers_result.
    change (curve (set_curve c self)) with c.
    rewrite Hmap. reflexivity. }
  rewrite Hup. repeat split.
Qed.

Lemma update_new_curve_stale_trackers_witness :
  let self := Sample.built in
  exists k',
    update Sample.kernel self =
      (Raise (KeyError k'),
       set_curve (from_outcome ∅ (rebuilt Sample.kernel self)) self) /\
    trackers (update Sample.kernel self).2 = trackers self.
Proof.
  intro self.
  destruct (update_new_curve_stale_trackers Sample.kernel self
              (from_outcome ∅ (rebuilt Sample.kernel self)) "Center")
    as (k' & _ & Hup & _ & Htr).
  - vm_compute. reflexivity.
  - repeat constructor.
  - vm_compute. reflexivity.
  - exists k'. split; [exact Hup|exact Htr].
Defined.

(** X9. [build_trackers] reads ['Center'], ['Start'], ['End'], ['PI']
    in this order: on a curve that lacks one of them it raises
    [KeyError] for the first one that is missing (every key before it
    being present) and leaves the tracker as it was. *)
Theorem build_trackers_missing_coordinate K (self : CurveTracker)
    (before after : list string) (k : string) :
  ["Center"; "Start"; "End"; "PI"] = before ++ k :: after ->
  Forall (fun k' => is_Some (curve self !! k')) before ->
  curve self !! k = None ->
  build_trackers K self = (Raise (KeyError k), self).
Proof.
  intros Hsplit Hbefore Hk.
  unfold build_trackers, build_trackers_result.
  cbn [but_last _node_names length take Nat.sub mapO].
  unfold getitem.
  destruct before as [|b0 [|b1 [|b2 [|b3 b]]]]; simpl in Hsplit;
    injection Hsplit as <-; intros; subst;
    repeat match goal with
           | H : Forall _ (_ :: _) |- _ =>
               apply Forall_cons in H as [[? ?] ?]
           end;
    repeat match goal with
           | H : curve self !! _ = _ |- _ => rewrite H; clear H
           end;
    simpl; try reflexivity.
  destruct b; discriminate.
Qed.

Lemma build_trackers_missing_coordinate_witness :
  let self :=
    Sample.tracker (delete "End" (Sample.spiral_curve 50)) true false in
  build_trackers Sample.kernel self = (Raise (KeyError "End"), self).
Proof.
  intro self.
  apply (build_trackers_missing_coordinate Sample.kernel self
           ["Center"; "Start"] ["PI"] "End").
  - reflexivity.
  - repeat constructor; vm_compute; eexists; reflexivity.
  - vm_compute. reflexivity.
Defined.

Lemma tag_last_nonempty (names : list string) (suffix : string) :
  names <> [] -> exists l, tag_last names suffix = Return l.
Proof.
  intros Hne. unfold tag_last.
  destruct (last names) as [n|] eqn:Hl; [eexists; reflexivity|].
  apply last_None in Hl. contradiction.
Qed.

(** What [build_trackers] makes of the four coordinates, when the names
    are not empty and the kernel samples the curve. *)
Lemma build_trackers_result_value K (self : CurveTracker)
    (c s e p ty : Value) (pts : list FreeCAD.Vector) :
  curve self !! "Center" = Some c -> curve self !! "Start" = Some s ->
  curve self !! "End" = Some e -> curve self !! "PI" = Some p ->
  curve self !! "Type" = Some ty ->
  names self <> [] ->
  (if eq_str ty "Spiral" then spiral_get_points K (curve self)
   else arc_get_points K (curve self)) = Return pts ->
  exists nc ns ne,
    let nodes :=
      [new_node nc c; new_node ns s; new_node ne e] in
    build_trackers_result K self =
    Return (mkTrackers nodes
      [_build_wire_tracker ((VStr <$> names self) ++ [VStr "Start Radius"])
         nodes [s; c] false;
       _build_wire_tracker ((VStr <$> names self) ++ [VStr "Start Tangent"])
         nodes [s; p] false;
       _build_wire_tracker ((VStr <$> names self) ++ [VStr "End Radius"])
         nodes [e; c] false;
       _build_wire_tracker ((VStr <$> names self) ++ [VStr "End Tangent"])
         nodes [e; p] false]
      [_build_wire_tracker ((VStr <$> names self) ++ [ty]) nodes
         (VPoint ∘ plain <$> pts) true]).
Proof.
  intros Hc Hs He Hp Hty Hne Hpts.
  destruct (tag_last_nonempty (names self) "Center" Hne) as [nc Hnc].
  destruct (tag_last_nonempty (names self) "Start" Hne) as [ns Hns].
  destruct (tag_last_nonempty (names self) "End" Hne) as [ne Hne'].
  exists nc, ns, ne. intros nodes.
  unfold build_trackers_result.
  cbn [but_last _node_names length take Nat.sub mapO].
  unfold getitem. rewrite Hc, Hs, He, Hp, Hty. simpl.
  unfold build_nodes. simpl. rewrite Hnc, Hns, Hne'. simpl.
  rewrite Hpts. reflexivity.
Qed.

(** X10. [build_trackers] succeeds on a curve that has ['Center'],
    ['Start'], ['End'], ['PI'] and ['Type'] when the names are not empty
    and the kernel can sample the curve.  It then holds three node
    trackers, showing the centre, the start and the end (none for the
    PI); four wires that cannot be selected, from the start and from the
    end to the centre and to the PI; and one selectable wire along the
    curve.  Every wire selects with the three new node trackers. *)
Theorem build_trackers_shape K (self : CurveTracker)
    (c s e p ty : Value) (pts : list FreeCAD.Vector) :
  curve self !! "Center" = Some c -> curve self !! "Start" = Some s ->
  curve self !! "End" = Some e -> curve self !! "PI" = Some p ->
  curve self !! "Type" = Some ty ->
  names self <> [] ->
  (if eq_str ty "Spiral" then spiral_get_points K (curve self)
   else arc_get_points K (curve self)) = Return pts ->
  let t := trackers (build_trackers K self).2 in
  (build_trackers K self).1 = Return () /\
  nt_point <$> Nodes t = [c; s; e] /\
  wt_points <$> Wires t = [[s; c]; [s; p]; [e; c]; [e; p]] /\
  wt_selectable <$> Wires t = [false; false; false; false] /\
  wt_points <$> CurveWires t = [VPoint ∘ plain <$> pts] /\
  wt_selectable <$> CurveWires t = [true] /\
  Forall (fun w => wt_selection_nodes w = Nodes t)
    (Wires t ++ CurveWires t).
Proof.
  intros Hc Hs He Hp Hty Hne Hpts t.
  destruct (build_trackers_result_value K self c s e p ty pts
              Hc Hs He Hp Hty Hne Hpts) as (nc & ns & ne & Hres).
  unfold t, build_trackers. rewrite Hres. simpl.
  repeat split. repeat constructor.
Qed.

Lemma build_trackers_shape_witness :
  let self := Sample.tracker (Sample.spiral_curve 50) true false in
  let t := trackers (build_trackers Sample.kernel self).2 in
  (build_trackers Sample.kernel self).1 = Return () /\
  length (Nodes t) = 3 /\ length (Wires t) = 4 /\
  Forall (fun w => wt_selection_nodes w = Nodes t)
    (Wires t ++ CurveWires t).
Proof.
  intros self t.
  destruct (build_trackers_shape Sample.kernel self
              (VPoint (plain (FreeCAD.mkVector 0 50 0)))
              (VPoint (plain (FreeCAD.mkVector 0 0 0)))
              (VPoint (plain (FreeCAD.mkVector 100 50 0)))
              (VPoint (plain (FreeCAD.mkVector 100 0 0)))
              (VStr "Spiral")
              [FreeCAD.mkVector 0 0 0; FreeCAD.mkVector 100 50 0])
    as (Hok & Hn & Hw & _ & _ & _ & Hsel);
    try reflexivity; try discriminate.
  fold t in Hn, Hw, Hsel.
  split; [exact Hok|]. split; [|split; [|exact Hsel]].
  - rewrite <- (length_fmap nt_point), Hn. reflexivity.
  - rewrite <- (length_fmap wt_points), Hw. reflexivity.
Defined.

(** X11. With no names, [build_trackers] raises [IndexError] at the
    first node tracker (its name is made from the last of the names) and
    leaves the tracker as it was. *)
Theorem build_trackers_needs_a_name K (self : CurveTracker)
    (c s e p : Value) :
  curve self !! "Center" = Some c -> curve self !! "Start" = Some s ->
  curve self !! "End" = Some e -> curve self !! "PI" = Some p ->
  names self = [] ->
  build_trackers K self = (Raise IndexError, self).
Proof.
  intros Hc Hs He Hp Hnames.
  unfold build_trackers, build_trackers_result.
  cbn [but_last _node_names length take Nat.sub mapO].
  unfold getitem. rewrite Hc, Hs, He, Hp. simpl.
  unfold build_nodes. simpl. rewrite Hnames. reflexivity.
Qed.

Lemma build_trackers_needs_a_name_witness :
  let self :=
    mkCurveTracker (Sample.spiral_curve 50)
      [Sample.pt 0 0 true; Sample.pt 100 0 false; Sample.pt 100 100 false]
      [] Sample.idle_mouse false true "UNSELECTED" Sample.no_trackers 0 in
  build_trackers Sample.kernel self = (Raise IndexError, self).
Proof.
  intro self.
  apply (build_trackers_needs_a_name Sample.kernel self
           (VPoint (plain (FreeCAD.mkVector 0 50 0)))
           (VPoint (plain (FreeCAD.mkVector 0 0 0)))
           (VPoint (plain (FreeCAD.mkVector 100 50 0)))
           (VPoint (plain (FreeCAD.mkVector 100 0 0))));
    reflexivity.
Defined.

(** ** The input callbacks over a run of events *)

Lemma user_dragging_button_event upd arg s :
  user_dragging (button_event upd arg s) =
  user_dragging s && button1_dragging (upd (mouse s) arg).
Proof.
  unfold button_event, end_drag. simpl.
  destruct (forallb _ _); [|destruct (existsb _ _)]; simpl;
    destruct (user_dragging s) eqn:E, (button1_dragging _); simpl;
    rewrite ?E; reflexivity.
Qed.

Lemma state_mouse_event upd arg s :
  state (mouse_event upd arg s) = state s.
Proof.
  unfold mouse_event, _update_status_bar, start_drag, on_drag. simpl.
  destruct (button1_dragging _); [|reflexivity].
  destruct (user_dragging s); reflexivity.
Qed.

(** X12. Pointer motion alone neither ends a drag nor touches the
    selection state: over any run of motion events a tracker that is
    dragging stays dragging, and its state is the one it had. *)
Theorem motion_keeps_drag_and_state upd (evs : list Event)
    (self : CurveTracker) :
  user_dragging self = true ->
  user_dragging (run upd (Motion <$> evs) self) = true /\
  state (run upd (Motion <$> evs) self) = state self.
Proof.
  revert self. induction evs as [|ev evs IH]; intros self Hd.
  - split; [exact Hd|reflexivity].
  - change (run upd (Motion <$> ev :: evs) self)
      with (run upd (Motion <$> evs) (mouse_event upd ev self)).
    destruct (IH (mouse_event upd ev self)) as [H1 H2].
    + rewrite user_dragging_mouse_event, Hd. reflexivity.
    + split; [exact H1|]. rewrite H2. apply state_mouse_event.
Qed.

Lemma motion_keeps_drag_and_state_witness :
  let self :=
    mouse_event Sample.mouse_update (Sample.move_to (1, 0)%Z)
      (Sample.held ["SELECTED"; "SELECTED"; "SELECTED"] true) in
  let evs := [Sample.move_to (2, 0)%Z; Sample.release_at (2, 1)%Z] in
  user_dragging self = true /\
  user_dragging (run Sample.mouse_update (Motion <$> evs) self) = true /\
  state (run Sample.mouse_update (Motion <$> evs) self) = "UNSELECTED".
Proof.
  intros self evs.
  assert (Hd : user_dragging self = true) by reflexivity.
  split; [exact Hd|].
  exact (motion_keeps_drag_and_state Sample.mouse_update evs self Hd).
Defined.

(** X13. Button events alone never start a drag: over any run of button
    events an idle tracker stays idle. *)
Theorem buttons_never_start_drag upd (evs : list Event)
    (self : CurveTracker) :
  user_dragging self = false ->
  user_dragging (run upd (Button <$> evs) self) = false.
Proof.
  revert self. induction evs as [|ev evs IH]; intros self Hd.
  - exact Hd.
  - change (run upd (Button <$> ev :: evs) self)
      with (run upd (Button <$> evs) (button_event upd ev self)).
    apply IH. rewrite user_dragging_button_event, Hd. reflexivity.
Qed.

Lemma buttons_never_start_drag_witness :
  user_dragging
    (run Sample.mouse_update
       (Button <$> [Sample.move_to (1, 1)%Z; Sample.move_to (2, 2)%Z;
                    Sample.release_at (2, 2)%Z])
       (Sample.held ["SELECTED"; "SELECTED"; "SELECTED"] true)) = false.
Proof.
  apply (buttons_never_start_drag Sample.mouse_update).
  reflexivity.
Defined.



(** X15. The view is redrawn exactly on a motion event that finds the
    tracker dragging and button 1 still dragging; the motion that starts
    a drag and every button event redraw nothing. *)
Theorem redraw_only_while_dragging upd (arg : Event) (self : CurveTracker) :
  redraws (mouse_event upd arg self) =
    (if user_dragging self && button1_dragging (upd (mouse self) arg)
     then S (redraws self) else redraws self) /\
  redraws (button_event upd arg self) = redraws self.
Proof.
  split.
  - unfold mouse_event, _update_status_bar, start_drag, on_drag. simpl.
    destruct (button1_dragging _); destruct (user_dragging self) eqn:E;
      simpl; rewrite ?E; reflexivity.
  - unfold button_event, end_drag. simpl.
    destruct (forallb _ _); [|destruct (existsb _ _)]; simpl;
      destruct (user_dragging self && _); reflexivity.
Qed.

(** X16. No run of input events changes the curve, the PI nodes, the
    trackers or the validity flag: in particular the shipped callbacks
    never make a tracker invalid. *)
Theorem callbacks_never_touch_model upd (inputs : list Input)
    (self : CurveTracker) :
  let self' := run upd inputs self in
  curve self' = curve self /\ pi_nodes self' = pi_nodes self /\
  trackers self' = trackers self /\ is_valid self' = is_valid self.
Proof. exact (run_same_model upd inputs self). Qed.

(** ** The surface editing commands *)

Section SurfaceCommands.

Context {Mesh : Type}.
Context (swapEdge : Mesh -> Z -> Z -> option Mesh).
Context (insertVertex : Mesh -> Z -> FreeCAD.Vector -> option Mesh).

Lemma insert_last_frame (l : list Mesh) (m : Mesh) :
  length (<[(length l - 1)%nat := m]> l) = length l /\
  take (length l - 1) (<[(length l - 1)%nat := m]> l)
    = take (length l - 1) l.
Proof.
  split; [apply length_insert|]. apply take_insert_ge. lia.
Qed.

(** X17. Whatever the event, [SwapEdge] keeps the number of selected
    surfaces and the mesh of every surface but the last: only the mesh
    of the last selected surface can change. *)
Theorem swap_edge_touches_last_mesh_only (cb : EditSurface.Callback)
    (self : EditSurface.Command) :
  let sel := EditSurface.selection self in
  let sel' := EditSurface.selection (EditSurface.SwapEdge swapEdge cb self).2 in
  length sel' = length sel /\
  take (length sel - 1) sel' = take (length sel - 1) sel.
Proof.
  unfold EditSurface.SwapEdge.
  destruct (EditSurface.action cb), (EditSurface.down cb); simpl; auto.
  destruct (EditSurface.pickedPoint cb) as [[index| |]|]; simpl; auto.
  destruct (EditSurface.FaceIndexes self ++ [index]) as [|i0 [|i1 [|i2 l]]];
    simpl; auto.
  destruct (py_index (EditSurface.selection self) (-1)) as [mesh|e];
    simpl; auto.
  apply insert_last_frame.
Qed.

(** X18. A swap is attempted on the second pick only: unless exactly
    one face is on record, no event changes a mesh or prints
    anything. *)
Theorem swap_edge_needs_one_recorded_face (cb : EditSurface.Callback)
    (self : EditSurface.Command) :
  length (EditSurface.FaceIndexes self) <> 1 ->
  let self' := (EditSurface.SwapEdge swapEdge cb self).2 in
  EditSurface.selection self' = EditSurface.selection self /\
  EditSurface.printed self' = EditSurface.printed self.
Proof.
  intros Hlen. unfold EditSurface.SwapEdge.
  destruct (EditSurface.action cb), (EditSurface.down cb); simpl; auto.
  destruct (EditSurface.pickedPoint cb) as [[index| |]|]; simpl; auto.
  destruct (EditSurface.FaceIndexes self) as [|i0 [|i1 l]]; simpl in *;
    auto; [lia|].
  destruct l; simpl; auto.
Qed.

(** X19. The second pick with no surface selected raises [IndexError]
    after the face was recorded: both faces stay on record. *)
Theorem swap_edge_without_selection (self : EditSurface.Command)
    (i0 index : Z) :
  EditSurface.FaceIndexes self = [i0] ->
  EditSurface.selection self = [] ->
  EditSurface.SwapEdge swapEdge
    (EditSurface.mkCallback EditSurface.BUTTON1 true
       (Some (EditSurface.FaceDetail index))) self =
  (Raise IndexError,
   EditSurface.mkCommand [i0; index] [] (EditSurface.printed self)
     (EditSurface.callback_registered self)).
Proof.
  intros Hidx Hsel. unfold EditSurface.SwapEdge. simpl.
  rewrite Hidx, Hsel. reflexivity.
Qed.

Lemma swap_edge_wedged_step (cb : EditSurface.Callback)
    (self : EditSurface.Command) :
  2 <= length (EditSurface.FaceIndexes self) ->
  let self' := (EditSurface.SwapEdge swapEdge cb self).2 in
  EditSurface.selection self' = EditSurface.selection self /\
  EditSurface.printed self' = EditSurface.printed self /\
  2 <= length (EditSurface.FaceIndexes self').
Proof.
  intros Hlen. unfold EditSurface.SwapEdge.
  destruct (EditSurface.action cb), (EditSurface.down cb); simpl; auto.
  destruct (EditSurface.pickedPoint cb) as [[index| |]|]; simpl; auto.
  destruct (EditSurface.FaceIndexes self) as [|i0 [|i1 l]]; simpl in *;
    try lia.
  destruct l; simpl; repeat split; lia.
Qed.

(** X20. Once two or more faces are on record (as after a second pick
    with nothing selected) the command is wedged: whatever events
    follow, no mesh changes, nothing is printed, and the record never
    gets shorter than two, so that no later pick is a second pick. *)
Theorem swap_edge_wedged (cbs : list EditSurface.Callback)
    (self : EditSurface.Command) :
  2 <= length (EditSurface.FaceIndexes self) ->
  let self' := EditSurface.SwapEdge_events swapEdge cbs self in
  EditSurface.selection self' = EditSurface.selection self /\
  EditSurface.printed self' = EditSurface.printed self /\
  2 <= length (EditSurface.FaceIndexes self').
Proof.
  revert self. induction cbs as [|cb cbs IH]; intros self Hlen.
  - simpl. auto.
  - change (EditSurface.SwapEdge_events swapEdge (cb :: cbs) self)
      with (EditSurface.SwapEdge_events swapEdge cbs
              (if EditSurface.callback_registered self
               then (EditSurface.SwapEdge swapEdge cb self).2 else self)).
    destruct (EditSurface.callback_registered self); [|apply IH; exact Hlen].
    destruct (swap_edge_wedged_step cb self Hlen) as (Hs & Hp & Hl).
    destruct (IH _ Hl) as (Hs' & Hp' & Hl').
    simpl. rewrite Hs', Hp'. auto.
Qed.

(** X21. The second pick on two faces FreeCAD can swap: the swapped
    mesh becomes the mesh of the last selected surface, the other
    surfaces keep theirs, nothing is printed and the record is
    emptied. *)
Theorem swap_edge_success_assigns (self : EditSurface.Command)
    (i0 index : Z) (others : list Mesh) (mesh swapped : Mesh) :
  EditSurface.FaceIndexes self = [i0] ->
  EditSurface.selection self = others ++ [mesh] ->
  swapEdge mesh i0 index = Some swapped ->
  EditSurface.SwapEdge swapEdge
    (EditSurface.mkCallback EditSurface.BUTTON1 true
       (Some (EditSurface.FaceDetail index))) self =
  (Return (),
   EditSurface.mkCommand [] (others ++ [swapped]) (EditSurface.printed self)
     (EditSurface.callback_registered self)).
Proof.
  intros Hidx Hsel Hswap. unfold EditSurface.SwapEdge. simpl.
  rewrite Hidx, Hsel. simpl. rewrite py_index_last, Hswap. simpl.
  rewrite length_app. simpl.
  replace (length others + 1 - 1)%nat with (length others + 0)%nat by lia.
  rewrite insert_app_r. reflexivity.
Qed.

(** X22. [add_point] is all or nothing: either it returns, or the
    command and every mesh are as before.  When it returns, the number
    of selected surfaces and the mesh of every surface but the last are
    as before. *)
Theorem add_point_all_or_nothing (cb : EditSurface.Callback)
    (obj : option FreeCAD.Vector) (self : EditSurface.AddPointCommand) :
  let r := EditSurface.add_point insertVertex cb obj self in
  let sel := EditSurface.ap_selection self in
  (r.1 = Return () \/ r.2 = self) /\
  length (EditSurface.ap_selection r.2) = length sel /\
  take (length sel - 1) (EditSurface.ap_selection r.2)
    = take (length sel - 1) sel.
Proof.
  unfold EditSurface.add_point.
  destruct (EditSurface.action cb), (EditSurface.down cb); simpl; auto.
  destruct (EditSurface.pickedPoint cb) as [[index| |]|]; simpl; auto.
  destruct obj as [curpos|]; simpl; auto.
  destruct (py_index (EditSurface.ap_selection self) (-1)) as [mesh|e];
    simpl; auto.
  destruct (insertVertex mesh index curpos) as [m|]; simpl; auto.
  split; [left; reflexivity|]. apply insert_last_frame.
Qed.

End SurfaceCommands.

Lemma swap_edge_needs_one_recorded_face_witness :
  let mesh : EditSurface.TriMesh := [(0, 1, 2); (1, 3, 2)]%Z in
  let self := EditSurface.mkCommand [] [mesh] [] true in
  let self' :=
    (EditSurface.SwapEdge EditSurface.tri_swapEdge
       (EditSurface.mkCallback EditSurface.BUTTON1 true
          (Some (EditSurface.FaceDetail 1))) self).2 in
  EditSurface.selection self' = [mesh] /\ EditSurface.printed self' = [].
Proof.
  intros mesh self.
  apply (swap_edge_needs_one_recorded_face EditSurface.tri_swapEdge).
  simpl. lia.
Defined.

Lemma swap_edge_without_selection_witness :
  EditSurface.SwapEdge EditSurface.tri_swapEdge
    (EditSurface.mkCallback EditSurface.BUTTON1 true
       (Some (EditSurface.FaceDetail 1)))
    (EditSurface.mkCommand [0%Z] [] [] true) =
  (Raise IndexError, EditSurface.mkCommand [0; 1]%Z [] [] true).
Proof.
  apply (swap_edge_without_selection EditSurface.tri_swapEdge
           (EditSurface.mkCommand [0%Z] [] [] true) 0 1); reflexivity.
Defined.

Lemma swap_edge_wedged_witness :
  let mesh : EditSurface.TriMesh := [(0, 1, 2); (1, 3, 2)]%Z in
  let pick i :=
    EditSurface.mkCallback EditSurface.BUTTON1 true
      (Some (EditSurface.FaceDetail i)) in
  let self' :=
    EditSurface.SwapEdge_events EditSurface.tri_swapEdge
      [pick 0%Z; pick 1%Z] (EditSurface.mkCommand [0; 1]%Z [mesh] [] true) in
  EditSurface.selection self' = [mesh] /\
  EditSurface.printed self' = [] /\
  2 <= length (EditSurface.FaceIndexes self').
Proof.
  intros mesh pick.
  apply (swap_edge_wedged EditSurface.tri_swapEdge). simpl. lia.
Defined.

Lemma swap_edge_success_assigns_witness :
  let mesh : EditSurface.TriMesh := [(0, 1, 2); (1, 3, 2)]%Z in
  EditSurface.SwapEdge EditSurface.tri_swapEdge
    (EditSurface.mkCallback EditSurface.BUTTON1 true
       (Some (EditSurface.FaceDetail 1)))
    (EditSurface.mkCommand [0%Z] [[(9, 9, 9)%Z]; mesh] [] true) =
  (Return (),
   EditSurface.mkCommand []
     [[(9, 9, 9)%Z]; [(0, 3, 1); (3, 0, 2)]%Z] [] true).
Proof.
  intro mesh.
  apply (swap_edge_success_assigns EditSurface.tri_swapEdge
           (EditSurface.mkCommand [0%Z] [[(9, 9, 9)%Z]; mesh] [] true)
           0 1 [[(9, 9, 9)%Z]] mesh); reflexivity.
Defined.

(** ** Geometry and Marker *)

(** X23. [set_coordinates] never changes the name or the publishing
    flag, whatever its arguments, and dispatches nothing when
    [do_notify] is false or the geometry does not publish. *)
Theorem set_coordinates_quiet (c : Geometry.Coordinates)
    (do_notify : bool) (self : Geometry.Geometry) :
  let self' := (Geometry.set_coordinates c do_notify self).2 in
  Geometry.name self' = Geometry.name self /\
  Geometry.do_publish self' = Geometry.do_publish self /\
  (do_notify && Geometry.do_publish self = false ->
   Geometry.dispatched self' = Geometry.dispatched self).
Proof.
  unfold Geometry.set_coordinates.
  destruct (Geometry.falsy c); [repeat split|].
  destruct (Geometry.coordinate_node self); [|repeat split].
  simpl.
  destruct (do_notify && Geometry.do_publish self); simpl; repeat split.
  discriminate.
Qed.

Lemma set_coordinates_quiet_witness :
  let g := Geometry.mkGeometry "node" true (Some [[1; 2; 3]%float]) [] in
  let quiet :=
    (Geometry.set_coordinates (Geometry.CTuple [7; 8; 9]%float) false g).2 in
  let loud :=
    (Geometry.set_coordinates (Geometry.CTuple [7; 8; 9]%float) true g).2 in
  false && Geometry.do_publish g = false /\
  Geometry.dispatched quiet = [] /\
  Geometry.name loud = "node" /\ Geometry.do_publish loud = true.
Proof.
  intros g quiet loud.
  destruct (set_coordinates_quiet (Geometry.CTuple [7; 8; 9]%float) false g)
    as (_ & _ & Hq).
  destruct (set_coordinates_quiet (Geometry.CTuple [7; 8; 9]%float) true g)
    as (Hn & Hp & _).
  split; [reflexivity|]. split; [exact (Hq eq_refl)|].
  split; [exact Hn|exact Hp].
Defined.

(** X24. On a publishing geometry, [set_coordinates] with coordinates
    and [do_notify] dispatches exactly one [NODE.UPDATED], carrying the
    name and the coordinates as a list (a single tuple as a list of
    one). *)
Theorem set_coordinates_notifies_once (c : Geometry.Coordinates)
    (self : Geometry.Geometry) (pts : list Geometry.Tuple) :
  Geometry.falsy c = false ->
  Geometry.coordinate_node self = Some pts ->
  Geometry.do_publish self = true ->
  Geometry.dispatched (Geometry.set_coordinates c true self).2 =
  Geometry.dispatched self ++
    [Geometry.mkDispatch "NODE.UPDATED" (Geometry.name self)
       match c with
       | Geometry.CList l => l
       | Geometry.CTuple t => [t]
       | Geometry.CNone => []
       end].
Proof.
  intros Hc Hn Hp. unfold Geometry.set_coordinates.
  rewrite Hc, Hn. simpl. rewrite Hp. reflexivity.
Qed.

Lemma set_coordinates_notifies_once_witness :
  let g := Geometry.mkGeometry "node" true (Some [[1; 2; 3]%float]) [] in
  Geometry.dispatched
    (Geometry.set_coordinates (Geometry.CTuple [7; 8; 9]%float) true g).2
  = [Geometry.mkDispatch "NODE.UPDATED" "node" [[7; 8; 9]%float]].
Proof.
  intro g.
  apply (set_coordinates_notifies_once (Geometry.CTuple [7; 8; 9]%float) g
           [[1; 2; 3]%float]); reflexivity.
Defined.

(** X25. Writing then reading: after [set_coordinates] with a list of
    coordinates that is not empty, on a geometry that has its coordinate
    node, [get] returns a list that starts with the coordinates written,
    each number rounded to single precision (the node keeps singles): a
    coordinate a single cannot hold does not read back as written. *)
Theorem set_coordinates_then_get (l : list Geometry.Tuple)
    (do_notify : bool) (self : Geometry.Geometry)
    (pts : list Geometry.Tuple) :
  l <> [] ->
  Geometry.coordinate_node self = Some pts ->
  exists rest,
    Geometry.get (Geometry.set_coordinates (Geometry.CList l) do_notify self).2
    = Return ((Coin.stored <$> l) ++ rest).
Proof.
  intros Hl Hn. exists (drop (length l) pts).
  unfold Geometry.set_coordinates, Geometry.get. simpl.
  rewrite bool_decide_eq_false_2 by exact Hl.
  rewrite Hn. destruct (do_notify && Geometry.do_publish self); reflexivity.
Qed.

Lemma set_coordinates_then_get_witness :
  let g :=
    Geometry.mkGeometry "node" false (Some [[1; 2; 3]; [4; 5; 6]]%float) [] in
  exists rest,
    Geometry.get
      (Geometry.set_coordinates
         (Geometry.CList [[16777217; 8; 9]%float]) true g).2
    = Return ([[16777216; 8; 9]%float] ++ rest).
Proof.
  intro g.
  apply (set_coordinates_then_get [[16777217; 8; 9]%float] true g
           [[1; 2; 3]; [4; 5; 6]]%float); [discriminate|reflexivity].
Defined.



(** [Marker.update] looks at the first coordinate of a list only, and
    takes a vector for the tuple of its values: a list starting with a
    vector does what the tuple alone does. *)
Remark marker_update_normalises (t : Geometry.Tuple)
    (l : list Marker.Item) (do_notify : bool) (self : Marker.Marker) :
  Marker.update (Marker.Many (Marker.IIter t :: l)) do_notify self =
    Marker.update (Marker.One (Marker.ITuple t)) do_notify self /\
  Marker.update (Marker.Many (Marker.ITuple t :: l)) do_notify self =
    Marker.update (Marker.One (Marker.ITuple t)) do_notify self /\
  Marker.update (Marker.One (Marker.IIter t)) do_notify self =
    Marker.update (Marker.One (Marker.ITuple t)) do_notify self.
Proof. repeat split. Qed.

(** X27. [Marker.update] without a coordinate ([None], an empty tuple,
    an empty vector) refreshes the marker where it is: it does what
    [update] with the marker's own point does, and the point stays. *)
Theorem marker_update_falsy_refreshes (i : Marker.Item)
    (do_notify : bool) (self : Marker.Marker) :
  Marker.falsy i = true ->
  Marker.update (Marker.One i) do_notify self =
    Marker.update (Marker.One (Marker.ITuple (Marker.point self)))
      do_notify self /\
  Marker.point (Marker.update (Marker.One i) do_notify self).2 =
    Marker.point self.
Proof.
  intros Hf. unfold Marker.update. rewrite Hf.
  destruct (Marker.point self) as [|x p] eqn:Hp; simpl; rewrite ?Hp;
    split; reflexivity.
Qed.

Lemma marker_update_falsy_refreshes_witness :
  let m :=
    Marker.mkMarker [1; 2; 0]%float [5; 5; 0]%float false
      (Geometry.mkGeometry "m" true (Some []) []) in
  Marker.update (Marker.One Marker.INone) true m =
    Marker.update (Marker.One (Marker.ITuple [1; 2; 0]%float)) true m /\
  Marker.point (Marker.update (Marker.One Marker.INone) true m).2 =
    [1; 2; 0]%float.
Proof.
  intro m.
  apply (marker_update_falsy_refreshes Marker.INone true m). reflexivity.
Defined.



(** ** The wire tracker of the commands *)

Section WireTrackerProps.

Context (z_depth : float).

Lemma set1Value_le (i : nat) (v : list float) (l : list (list float)) :
  i <= length l ->
  WireTracker.set1Value i v l = take i l ++ Coin.stored v :: drop (S i) l.
Proof.
  intros Hi. unfold WireTracker.set1Value.
  destruct (Nat.ltb_spec i (length l)) as [Hlt|Hge].
  - apply insert_take_drop. exact Hlt.
  - assert (i = length l) as -> by lia.
    rewrite Nat.sub_diag, take_ge, drop_ge by lia. reflexivity.
Qed.

(** The loop of [update_points] entered at index [i], at most the
    length of the coordinate field. *)
Lemma add_edit_trackers_spec (pts : list FreeCAD.Vector) :
  forall (i : nat) (self : WireTracker.WireTracker),
    i <= length (WireTracker.coords self) ->
    let r := WireTracker.add_edit_trackers z_depth i pts self in
    WireTracker.edit_trackers r.1 =
      WireTracker.edit_trackers self ++
      imap (fun k p =>
              WireTracker.mkEditTracker ("Node" +:+ pretty (i + k))
                WireTracker.style_default (WireTracker.set_z z_depth p))
           pts /\
    WireTracker.numVertices r.1 = WireTracker.numVertices self /\
    WireTracker.finalized r.1 = WireTracker.finalized self /\
    r.2 = WireTracker.set_z z_depth <$> pts /\
    WireTracker.coords r.1 =
      take i (WireTracker.coords self) ++
      (Coin.stored ∘ WireTracker.as_list ∘ WireTracker.set_z z_depth <$> pts) ++
      drop (i + length pts) (WireTracker.coords self).
Proof.
  induction pts as [|p pts IH]; intros i self Hi; simpl.
  - rewrite app_nil_r, Nat.add_0_r, take_drop. repeat split.
  - match goal with
    | |- context [WireTracker.add_edit_trackers _ _ _ ?s] => set (self1 := s)
    end.
    assert (Hc1 : WireTracker.coords self1 =
                  take i (WireTracker.coords self) ++
                  Coin.stored (WireTracker.as_list (WireTracker.set_z z_depth p)) ::
                  drop (S i) (WireTracker.coords self))
      by (apply set1Value_le; exact Hi).
    assert (Hlen : length (take i (WireTracker.coords self)) = i)
      by (rewrite length_take; lia).
    assert (Hi1 : S i <= length (WireTracker.coords self1)).
    { rewrite Hc1, length_app, Hlen. simpl. lia. }
    destruct (IH (S i) self1 Hi1) as (He & Hn & Hf & Hp & Hc).
    rewrite He, Hn, Hf, Hp, Hc. clear IH He Hn Hf Hp Hc.
    repeat split.
    + unfold self1. simpl. rewrite <- app_assoc. simpl.
      rewrite Nat.add_0_r. do 2 f_equal.
      apply imap_ext. intros k q _. simpl.
      replace (i + S k) with (S (i + k)) by lia. reflexivity.
    + rewrite Hc1.
      replace (take (S i)
                 (take i (WireTracker.coords self) ++
                  Coin.stored (WireTracker.as_list (WireTracker.set_z z_depth p)) ::
                  drop (S i) (WireTracker.coords self)))
        with (take i (WireTracker.coords self) ++
              [Coin.stored (WireTracker.as_list (WireTracker.set_z z_depth p))]).
      2:{ rewrite take_app, Hlen.
          rewrite (take_ge (take i (WireTracker.coords self)) (S i))
            by (rewrite Hlen; lia).
          replace (S i - i) with 1 by lia. reflexivity. }
      rewrite <- app_assoc. simpl. do 2 f_equal.
      rewrite drop_app, Hlen.
      rewrite (drop_ge (take i (WireTracker.coords self)))
        by (rewrite Hlen; lia).
      simpl.
      replace (S (i + length pts) - i) with (S (length pts)) by lia.
      f_equal. simpl. rewrite drop_drop. f_equal. lia.
Qed.

(** X29. [update_points] replaces the edit trackers: afterwards there
    is one edit tracker per point, in order, named ['Node0'],
    ['Node1'], ..., in the default style, at its point with [z] set to
    the depth constant; [numVertices] is the number of points; the
    coordinate field starts with these points, each number rounded to
    single precision (the field keeps singles); the caller's points
    have had their [z] overwritten; and every edit tracker held before
    has been finalized. *)
Theorem update_points_replaces_edit_trackers (pts : list FreeCAD.Vector)
    (self : WireTracker.WireTracker) :
  let r := WireTracker.update_points z_depth pts self in
  WireTracker.edit_trackers r.1 =
    imap (fun k p =>
            WireTracker.mkEditTracker ("Node" +:+ pretty k)
              WireTracker.style_default (WireTracker.set_z z_depth p))
         pts /\
  WireTracker.numVertices r.1 = length pts /\
  length (WireTracker.edit_trackers r.1) = length pts /\
  WireTracker.finalized r.1 =
    WireTracker.finalized self ++ WireTracker.edit_trackers self /\
  r.2 = WireTracker.set_z z_depth <$> pts /\
  take (length pts) (WireTracker.coords r.1) =
    (Coin.stored ∘ WireTracker.as_list ∘ WireTracker.set_z z_depth <$> pts).
Proof.
  unfold WireTracker.update_points.
  match goal with
  | |- context [WireTracker.add_edit_trackers _ _ _ ?s] => set (self0 := s)
  end.
  assert (H0 : WireTracker.edit_trackers self0 = [] /\
               WireTracker.numVertices self0 = length pts /\
               WireTracker.coords self0 = WireTracker.coords self /\
               WireTracker.finalized self0 =
                 WireTracker.finalized self ++ WireTracker.edit_trackers self).
  { unfold self0, WireTracker.finalize_edit_trackers. simpl.
    destruct (WireTracker.edit_trackers self) as [|e es]; simpl;
      rewrite ?app_nil_r; repeat split. }
  destruct H0 as (He0 & Hn0 & Hc0 & Hf0).
  destruct (add_edit_trackers_spec pts 0 self0) as (He & Hn & Hf & Hp & Hc);
    [lia|].
  simpl in *. rewrite He, Hn, Hf, Hp, Hc, He0, Hn0, Hf0. simpl.
  rewrite length_imap.
  repeat split.
  rewrite take_app_length'; [reflexivity|].
  rewrite length_fmap. reflexivity.
Qed.

(** [update] without points or with an empty list does nothing: it
    cannot be used to clear a wire, whose edit trackers and vertex
    count stay as they were. *)
Remark update_without_points_is_noop (self : WireTracker.WireTracker) :
  WireTracker.update z_depth None self = (self, None) /\
  WireTracker.update z_depth (Some []) self = (self, Some []).
Proof. split; reflexivity. Qed.

(** X30. [finalize_edit_trackers] finalizes every edit tracker once and
    forgets them: a second call finds none and changes nothing. *)
Theorem finalize_edit_trackers_once (self : WireTracker.WireTracker) :
  let self' := WireTracker.finalize_edit_trackers self in
  WireTracker.edit_trackers self' = [] /\
  WireTracker.finalized self' =
    WireTracker.finalized self ++ WireTracker.edit_trackers self /\
  WireTracker.finalize_edit_trackers self' = self'.
Proof.
  unfold WireTracker.finalize_edit_trackers.
  destruct (WireTracker.edit_trackers self) as [|e es] eqn:He; simpl.
  - rewrite He, app_nil_r. repeat split.
  - repeat split.
Qed.

End WireTrackerProps.
